(** * mx3tools.ovftools: the OVF reader, embedded and verified

    A shallow embedding of [src/mx3tools/ovftools.py]: the header reader
    [_read_header], the byte-order detector [_endianness], the payload
    decoders [_text_decode], [_fast_binary_decode],
    [_fast_binary_decode_scalars], the entry points [unpack],
    [unpack_scalars] and the directory reader [group_unpack].

    - A file object opened in ['rb'] mode is the list of bytes that are
      still unread; every reading function threads it explicitly.
    - Python exceptions are values of [exn]; a computation ends in
      [Ret v], in [Raise e], or, for the one unbounded loop of the module
      (the header loop), in [OutOfFuel] when the given number of
      iterations did not suffice.
    - Memory is no resource of the model: Python and numpy are on a
      64-bit build, whose size limits are modelled, and a request
      within these limits is granted (no [MemoryError]).
    - [bytes] are lists of [byte]; [str] are lists of Unicode code points.
    - Python floats and numpy elements are [spec_float]s (the IEEE 754
      specification of the standard library), read as the exact value
      they denote. *)

From Stdlib Require Import ZArith List Lia Bool.
From Stdlib Require Import Strings.String Strings.Ascii Strings.Byte.
From Stdlib Require Import DecimalString HexadecimalString.
From Stdlib Require Import Floats.SpecFloat.
From stdpp Require Import base option list gmap strings sorting.

Local Open Scope Z_scope.

(** ** Outcomes: values, exceptions, exhausted fuel *)

Inductive exn : Type :=
| IndexError
| KeyError (key : string)
| ValueError
| TypeError
| OverflowError
| UnicodeDecodeError
| StructError
| IOError (msg : string)
| UnboundLocalError (name : string)
| NotImplementedError
| FileNotFoundError
| IsADirectoryError.

Inductive outcome (A : Type) : Type :=
| Ret (a : A)
| Raise (e : exn)
| OutOfFuel.
Arguments Ret {A} a.
Arguments Raise {A} e.
Arguments OutOfFuel {A}.

Definition obind {A B} (c : outcome A) (k : A -> outcome B) : outcome B :=
  match c with
  | Ret a => k a
  | Raise e => Raise e
  | OutOfFuel => OutOfFuel
  end.

Notation "x <- c ;; k" := (obind c (fun x => k))
  (at level 100, c at next level, right associativity).

(** [o or_raise e]: the value of an option, or the exception [e]. *)
Definition or_raise {A} (o : option A) (e : exn) : outcome A :=
  match o with Some a => Ret a | None => Raise e end.

(** ** Bytes, strings and the file object *)

Definition bytes := list byte.
Definition str := list Z.

Definition byte_val (b : byte) : Z := Z.of_N (Byte.to_N b).

(** An ASCII literal of the source, as [bytes] and as [str]. *)
Definition blit (s : string) : bytes := String.list_byte_of_string s.
Definition lit (s : string) : str := map byte_val (blit s).

(** The file object: the bytes not yet read. *)
Definition stream := bytes.

(** [f.readline()]: up to and including the next newline, or the rest. *)
Fixpoint readline (f : stream) : bytes * stream :=
  match f with
  | [] => ([], [])
  | b :: f' =>
      if byte_val b =? 10 then ([b], f')
      else let '(line, rest) := readline f' in (b :: line, rest)
  end.

(** The limits of a 64-bit build: the largest C [intp] of numpy, which
    is CPython's [sys.maxsize], and the longest [bytes] object CPython
    builds (the header of the object takes 33 bytes of that range). *)
Definition max_intp : Z := 2 ^ 63 - 1.
Definition max_bytes : Z := max_intp - 33.

(** [f.read(n)]: [n] bytes, fewer at the end of the file; everything when
    [n] is -1. A length below -1 is refused with [ValueError], a length
    above [max_bytes] with [OverflowError]. *)
Definition read (n : Z) (f : stream) : outcome (bytes * stream) :=
  if n <? -1 then Raise ValueError
  else if max_bytes <? n then Raise OverflowError
  else if n <? 0 then Ret (f, [])
  else Ret (take (Z.to_nat n) f, drop (Z.to_nat n) f).

(** ASCII whitespace, for [bytes.strip] and [bytes.split]. *)
Definition is_space_byte (b : byte) : bool :=
  let c := byte_val b in ((9 <=? c) && (c <=? 13)) || (c =? 32).

(** Unicode whitespace, for [str.strip] and [str.split]. *)
Definition is_space (c : Z) : bool :=
  ((9 <=? c) && (c <=? 13)) || ((28 <=? c) && (c <=? 32))
  || (c =? 133) || (c =? 160) || (c =? 5760)
  || ((8192 <=? c) && (c <=? 8202))
  || (c =? 8232) || (c =? 8233) || (c =? 8239) || (c =? 8287)
  || (c =? 12288).

Section Strip.
Context {A : Type} (sp : A -> bool).

Fixpoint lstrip (s : list A) : list A :=
  match s with
  | c :: s' => if sp c then lstrip s' else s
  | [] => []
  end.

Definition strip (s : list A) : list A := rev (lstrip (rev (lstrip s))).

(** [s.split()]: the maximal runs of non-blank characters. [cur] is the
    run being read, reversed. *)
Fixpoint split_ws_aux (cur : list A) (s : list A) : list (list A) :=
  match s with
  | [] => match cur with [] => [] | _ => [rev cur] end
  | c :: s' =>
      if sp c
      then match cur with
           | [] => split_ws_aux [] s'
           | _ => rev cur :: split_ws_aux [] s'
           end
      else split_ws_aux (c :: cur) s'
  end.

Definition split_ws (s : list A) : list (list A) := split_ws_aux [] s.
End Strip.

Definition bytes_strip : bytes -> bytes := strip is_space_byte.
Definition bytes_split : bytes -> list bytes := split_ws is_space_byte.
Definition str_strip : str -> str := strip is_space.
Definition str_split : str -> list str := split_ws is_space.

(** [prefix_b p s]: [s.startswith(p)]. *)
Fixpoint prefix_b (p s : str) : bool :=
  match p, s with
  | [], _ => true
  | _ :: _, [] => false
  | a :: p', b :: s' => (a =? b) && prefix_b p' s'
  end.

(** [sub in s] on strings. *)
Fixpoint contains (sub s : str) : bool :=
  prefix_b sub s ||
  match s with
  | [] => false
  | _ :: s' => contains sub s'
  end.

(** [s.split(sep, maxsplit)] for a non-empty [sep]; [maxsplit = None]
    stands for the absent argument. [cur] is the piece being read,
    reversed. The recursion is on [fuel], one unit per character. *)
Fixpoint split_sep_aux (fuel : nat) (sep : str) (maxsplit : option nat)
    (cur : str) (s : str) : list str :=
  match fuel with
  | O => [rev cur ++ s]
  | S fuel' =>
      match s with
      | [] => [rev cur]
      | c :: s' =>
          match maxsplit with
          | Some O => [rev cur ++ s]
          | _ =>
              if prefix_b sep s
              then rev cur ::
                   split_sep_aux fuel' sep (Nat.pred <$> maxsplit) []
                     (drop (length sep) s)
              else split_sep_aux fuel' sep maxsplit (c :: cur) s'
          end
      end
  end.

Definition split_sep (sep : str) (maxsplit : option nat) (s : str) : list str :=
  split_sep_aux (S (length s)) sep maxsplit [] s.

(** Indexing a Python list: [l[i]], negative [i] counting from the end. *)
Definition getitem {A} (l : list A) (i : Z) : outcome A :=
  let n := Z.of_nat (length l) in
  let j := if i <? 0 then i + n else i in
  if (0 <=? j) && (j <? n)
  then or_raise (l !! Z.to_nat j) IndexError
  else Raise IndexError.

(** [b.decode()]: strict UTF-8. Overlong forms, surrogates and code
    points beyond U+10FFFF are rejected. *)
Definition is_cont (b : byte) : bool :=
  (128 <=? byte_val b) && (byte_val b <? 192).

Fixpoint utf8_decode (bs : bytes) : option str :=
  match bs with
  | [] => Some []
  | b0 :: r0 =>
      let c0 := byte_val b0 in
      if c0 <? 128 then cons c0 <$> utf8_decode r0
      else if (194 <=? c0) && (c0 <? 224) then
        match r0 with
        | b1 :: r1 =>
            if is_cont b1
            then cons ((c0 - 192) * 64 + (byte_val b1 - 128)) <$> utf8_decode r1
            else None
        | _ => None
        end
      else if (224 <=? c0) && (c0 <? 240) then
        match r0 with
        | b1 :: b2 :: r2 =>
            let c := (c0 - 224) * 4096 + (byte_val b1 - 128) * 64
                     + (byte_val b2 - 128) in
            if is_cont b1 && is_cont b2 && (2048 <=? c)
               && negb ((55296 <=? c) && (c <=? 57343))
            then cons c <$> utf8_decode r2
            else None
        | _ => None
        end
      else if (240 <=? c0) && (c0 <? 245) then
        match r0 with
        | b1 :: b2 :: b3 :: r3 =>
            let c := (c0 - 240) * 262144 + (byte_val b1 - 128) * 4096
                     + (byte_val b2 - 128) * 64 + (byte_val b3 - 128) in
            if is_cont b1 && is_cont b2 && is_cont b3
               && (65536 <=? c) && (c <=? 1114111)
            then cons c <$> utf8_decode r3
            else None
        | _ => None
        end
      else None
  end.

Definition decode (b : bytes) : outcome str :=
  or_raise (utf8_decode b) UnicodeDecodeError.

(** Computations on the file object: the unread bytes are threaded. *)
Definition io (A : Type) : Type := stream -> outcome (A * stream).

Definition io_ret {A} (a : A) : io A := fun f => Ret (a, f).

Definition io_bind {A B} (c : io A) (k : A -> io B) : io B :=
  fun f =>
    match c f with
    | Ret (a, f') => k a f'
    | Raise e => Raise e
    | OutOfFuel => OutOfFuel
    end.

Definition lift {A} (c : outcome A) : io A :=
  fun f => x <- c ;; Ret (x, f).

Definition f_readline : io bytes := fun f => Ret (readline f).
Definition f_read (n : Z) : io bytes := read n.

Notation "x <~ c ;; k" := (io_bind c (fun x => k))
  (at level 100, c at next level, right associativity).

(** ** Floats *)

(** Python's [float] and the elements of numpy arrays. A [spec_float] is
    read as the value it denotes: the 24-bit mantissa of a decoded
    [float32] and the 53-bit mantissa of the same number as a [float64]
    are equal under [float_eq]. *)
Definition float := spec_float.

(** [x == y] on floats: equality of values; NaN equals nothing, the two
    zeros are equal. *)
Definition float_eq (x y : float) : bool :=
  match x, y with
  | S754_zero _, S754_zero _ => true
  | S754_infinity s1, S754_infinity s2 => Bool.eqb s1 s2
  | S754_finite s1 m1 e1, S754_finite s2 m2 e2 =>
      let e := Z.min e1 e2 in
      Bool.eqb s1 s2 && (Z.pos m1 * 2 ^ (e1 - e) =? Z.pos m2 * 2 ^ (e2 - e))
  | _, _ => false
  end.

(** [x * y] on [float64]. *)
Definition float_mul (x y : float) : float := SFmul 53 1024 x y.

(** [float(z)] for a Python [int]. *)
Definition float_of_int (z : Z) : float := binary_normalize 53 1024 z 0 false.

(** [int(x)]: truncation towards zero. *)
Definition int_of_float (x : float) : outcome Z :=
  match x with
  | S754_zero _ => Ret 0
  | S754_finite s m e =>
      let a := if 0 <=? e then Z.pos m * 2 ^ e else Z.pos m / 2 ^ (- e) in
      Ret (if s then - a else a)
  | S754_infinity _ => Raise OverflowError
  | S754_nan => Raise ValueError
  end.

(** The IEEE 754 value of a bit pattern with [mw] mantissa bits and [ew]
    exponent bits. *)
Definition float_of_bits (mw ew : Z) (x : Z) : float :=
  let s := 2 ^ (mw + ew) <=? x in
  let e := (x / 2 ^ mw) mod 2 ^ ew in
  let m := x mod 2 ^ mw in
  let bias := 2 ^ (ew - 1) - 1 in
  if e =? 0 then
    match m with
    | Z.pos p => S754_finite s p (1 - bias - mw)
    | _ => S754_zero s
    end
  else if e =? 2 ^ ew - 1 then
    if m =? 0 then S754_infinity s else S754_nan
  else
    match m + 2 ^ mw with
    | Z.pos p => S754_finite s p (e - bias - mw)
    | _ => S754_nan
    end.

(** [int.from_bytes(b, 'big')] and [int.from_bytes(b, 'little')]. *)
Definition be_int (b : bytes) : Z :=
  fold_left (fun acc c => acc * 256 + byte_val c) b 0.
Definition le_int (b : bytes) : Z := be_int (rev b).

(** The builtins [float(s)] and [int(s)] on strings are parameters of the
    development. [None] is Python's [ValueError]. *)
Class Builtins : Type := {
  py_float : str -> option float;
  py_int : str -> option Z
}.

(** ** The header reader *)

(** The values stored in the header dictionary. *)
Inductive hval : Type :=
| HInt (z : Z)
| HFloat (x : float)
| HStr (s : str)
| HList (l : list str).

(** [int(v)]. *)
Definition hval_int `{Builtins} (v : hval) : outcome Z :=
  match v with
  | HInt z => Ret z
  | HFloat x => int_of_float x
  | HStr s => or_raise (py_int s) ValueError
  | HList _ => Raise TypeError
  end.

(** [headers[key]]. *)
Definition hget (headers : gmap string hval) (key : string) : outcome hval :=
  or_raise (headers !! key) (KeyError key).

Definition header_keys : list string :=
  ["xbase"; "ybase"; "zbase"; "xstepsize"; "ystepsize"; "zstepsize";
   "xnodes"; "ynodes"; "znodes"; "valuemultiplier"]%string.

Definition header_defaults : gmap string hval :=
  <["SimTime" := HInt (-1)]> (<["Iteration" := HInt (-1)]>
  (<["Stage" := HInt (-1)]> (<["MIFSource" := HStr []]> ∅))).

Section Header.
Context `{Builtins}.

(** [float(s)]. *)
Definition to_float (s : str) : outcome float :=
  or_raise (py_float s) ValueError.

(** The [for key in [...]] loop over one line. *)
Fixpoint scan_keys (keys : list string) (line : str)
    (headers : gmap string hval) : outcome (gmap string hval) :=
  match keys with
  | [] => Ret headers
  | key :: keys' =>
      if contains (lit key) line then
        field <- getitem (split_sep (lit ": ") None line) 1 ;;
        x <- to_float field ;;
        scan_keys keys' line (<[key := HFloat x]> headers)
      else scan_keys keys' line headers
  end.

(** [float(line.split(':')[2].split(',')[0].strip())]. *)
Definition third_segment (line : str) : outcome float :=
  seg <- getitem (split_sep (lit ":") None line) 2 ;;
  head <- getitem (split_sep (lit ",") None seg) 0 ;;
  to_float (str_strip head).

(** The [if/elif] chain on the provenance keys. *)
Definition scan_provenance (line : str) (headers : gmap string hval)
    : outcome (gmap string hval) :=
  if contains (lit "Total simulation time") line then
    seg <- getitem (split_sep (lit ":") None line) (-1) ;;
    tok <- getitem (str_split (str_strip seg)) 0 ;;
    x <- to_float (str_strip tok) ;;
    Ret (<["SimTime" := HFloat x]> headers)
  else if contains (lit "Iteration") line then
    x <- third_segment line ;;
    Ret (<["Iteration" := HFloat x]> headers)
  else if contains (lit "Stage") line then
    x <- third_segment line ;;
    Ret (<["Stage" := HFloat x]> headers)
  else if contains (lit "MIF source file") line then
    seg <- getitem (split_sep (lit ":") (Some 2%nat) line) 2 ;;
    Ret (<["MIFSource" := HStr (str_strip seg)]> headers)
  else Ret headers.

(** The body of the [while] loop after the line has been read. *)
Definition header_line (line : str) (headers : gmap string hval)
    : outcome (gmap string hval) :=
  headers' <- scan_keys header_keys line headers ;;
  scan_provenance line headers'.

(** [while 'Begin: Data' not in line: ...], at most [fuel] iterations,
    then [headers['data_type'] = line.split()]. *)
Fixpoint header_loop (fuel : nat) (line : str)
    (headers : gmap string hval) : io (gmap string hval) :=
  if contains (lit "Begin: Data") line then
    io_ret (<["data_type" := HList (str_split line)]> headers)
  else
    match fuel with
    | O => fun _ => OutOfFuel
    | S fuel' =>
        raw <~ f_readline ;;
        line' <~ lift (decode (bytes_strip raw)) ;;
        headers' <~ lift (header_line line' headers) ;;
        header_loop fuel' line' headers'
    end.

Definition _read_header (fuel : nat) : io (gmap string hval) :=
  header_loop fuel [] header_defaults.
End Header.

(** ** An instance of the builtins on plain decimal literals

    [literal_float] reads an optional sign, digits, an optional fraction
    and an optional exponent, between optional blanks, and rounds the
    decimal number to the nearest [float64]; [literal_int] reads an
    optional sign and digits. They stand for Python's [float] and [int]
    on such literals in the concrete runs below. *)

Definition is_digit (c : Z) : bool := (48 <=? c) && (c <=? 57).

(** Leading digits of [s]: their value continuing [acc], how many there
    are, and what follows. *)
Fixpoint digits (acc : Z) (n : Z) (s : str) : Z * Z * str :=
  match s with
  | c :: s' => if is_digit c then digits (acc * 10 + (c - 48)) (n + 1) s'
               else (acc, n, s)
  | [] => (acc, n, [])
  end.

Definition sign_of (s : str) : bool * str :=
  match s with
  | 45 :: s' => (true, s')
  | 43 :: s' => (false, s')
  | _ => (false, s)
  end.

(** The [float64] nearest to [m * 10 ^ e10], with sign [neg]. *)
Definition float_of_decimal (neg : bool) (m e10 : Z) : float :=
  if m =? 0 then S754_zero neg
  else if 0 <=? e10 then
    binary_normalize 53 1024 (if neg then - (m * 10 ^ e10) else m * 10 ^ e10) 0 neg
  else
    let '(q, e, l) := SFdiv_core_binary 53 1024 m 0 (10 ^ (- e10)) 0 in
    binary_round_aux 53 1024 neg q e l.

Definition literal_float (s : str) : option float :=
  let '(neg, s1) := sign_of (str_strip s) in
  let '(ip, ni, s2) := digits 0 0 s1 in
  let '(m, nf, s3) :=
    match s2 with
    | 46 :: s2' => digits ip 0 s2'
    | _ => (ip, 0, s2)
    end in
  if ni + nf =? 0 then None
  else
    match s3 with
    | [] => Some (float_of_decimal neg m (- nf))
    | c :: s4 =>
        if (c =? 101) || (c =? 69) then
          let '(eneg, s5) := sign_of s4 in
          let '(ev, ne, s6) := digits 0 0 s5 in
          match s6 with
          | [] => if ne =? 0 then None
                  else Some (float_of_decimal neg m
                               ((if eneg then - ev else ev) - nf))
          | _ => None
          end
        else None
    end.

Definition literal_int (s : str) : option Z :=
  let '(neg, s1) := sign_of (str_strip s) in
  let '(v, n, s2) := digits 0 0 s1 in
  match s2 with
  | [] => if n =? 0 then None else Some (if neg then - v else v)
  | _ => None
  end.

#[export] Instance literal_builtins : Builtins :=
  {| py_float := literal_float; py_int := literal_int |}.

(** ** The byte-order detector *)

(** The two formats of the module, ['>f'], ['>d'], ['<f'], ['<d'], as
    [struct] and [numpy] read them: big-endian or not, mantissa and
    exponent widths, size in bytes. *)
Record format : Type := {
  fmt_big : bool;
  fmt_mw : Z;
  fmt_ew : Z;
  fmt_size : Z
}.

Definition format_of (fmt : string) : option format :=
  match fmt with
  | ">f"%string => Some {| fmt_big := true; fmt_mw := 23; fmt_ew := 8; fmt_size := 4 |}
  | ">d"%string => Some {| fmt_big := true; fmt_mw := 52; fmt_ew := 11; fmt_size := 8 |}
  | "<f"%string => Some {| fmt_big := false; fmt_mw := 23; fmt_ew := 8; fmt_size := 4 |}
  | "<d"%string => Some {| fmt_big := false; fmt_mw := 52; fmt_ew := 11; fmt_size := 8 |}
  | _ => None
  end.

(** The value stored in the [fmt_size] bytes [b]. *)
Definition item (fm : format) (b : bytes) : float :=
  float_of_bits (fmt_mw fm) (fmt_ew fm)
    (if fmt_big fm then be_int b else le_int b).

(** [struct.unpack(fmt, buffer)[0]]. *)
Definition struct_unpack (fmt : string) (buffer : bytes) : outcome float :=
  fm <- or_raise (format_of fmt) StructError ;;
  if Z.of_nat (length buffer) =? fmt_size fm
  then Ret (item fm buffer)
  else Raise StructError.

(** What [hex] is applied to. *)
Inductive hexarg : Type :=
| ArgInt (z : Z)
| ArgBytes (b : bytes).

(** [hex(x)]: defined on integers only. *)
Definition hex (x : hexarg) : outcome string :=
  match x with
  | ArgInt z =>
      Ret (String.append (if (z <? 0)%Z then "-0x" else "0x")
             (HexadecimalString.NilZero.string_of_uint
                (N.to_hex_uint (Z.to_N (Z.abs z)))))
  | ArgBytes _ => Raise TypeError
  end.

Definition repr_int (z : Z) : string :=
  DecimalString.NilZero.string_of_int (Z.to_int z).

Definition big_endian : gmap Z string :=
  <[4 := ">f"%string]> (<[8 := ">d"%string]> ∅).
Definition little_endian : gmap Z string :=
  <[4 := "<f"%string]> (<[8 := "<d"%string]> ∅).
Definition value : gmap Z float :=
  <[4 := float_of_int 1234567]> (<[8 := float_of_int 123456789012345]> ∅).

Definition dict_get {V} (d : gmap Z V) (k : Z) : outcome V :=
  or_raise (d !! k) (KeyError (repr_int k)).

Definition _endianness (nbytes : Z) : io string :=
  buffer <~ f_read nbytes ;;
  lift (
    be <- dict_get big_endian nbytes ;;
    x <- struct_unpack be buffer ;;
    v <- dict_get value nbytes ;;
    if float_eq x v then Ret be
    else
      le <- dict_get little_endian nbytes ;;
      y <- struct_unpack le buffer ;;
      v' <- dict_get value nbytes ;;
      if float_eq y v' then Ret le
      else
        digits <- hex (ArgBytes buffer) ;;
        Raise (IOError ("Cannot decode " ++ repr_int nbytes
                        ++ "-byte order mark: " ++ digits)%string)).

(** ** Arrays *)

(** A numpy array: its shape and its elements in C order (the last axis
    varies fastest). *)
Record ndarray : Type := {
  shape : list Z;
  data : list float
}.

Definition product (l : list Z) : Z := fold_right Z.mul 1 l.

(** The byte offsets of the elements of an array of the given shape and
    strides, in C order. *)
Fixpoint offsets (shape strides : list Z) (base : Z) : list Z :=
  match shape, strides with
  | d :: shape', s :: strides' =>
      flat_map (fun i => offsets shape' strides' (base + i * s)) (seqZ 0 d)
  | _, _ => [base]
  end.

(** Whether every element lies within [numbytes] bytes. *)
Definition check_strides (size : Z) (shape strides : list Z)
    (numbytes offset : Z) : bool :=
  if existsb (Z.eqb 0) shape then true
  else
    let reach := map (fun '(d, s) => s * (d - 1)) (zip shape strides) in
    let upper := fold_right Z.add size (filter (fun r => 0 < r) reach) in
    let lower := fold_right Z.add 0 (filter (fun r => r <= 0) reach) in
    (offset + upper <=? numbytes) && (0 <=? offset + lower).

Definition slice (b : bytes) (start len : Z) : bytes :=
  take (Z.to_nat len) (drop (Z.to_nat start) b).

(** The integers numpy takes as a dimension or a stride: those of the C
    type [intp]. Any other is refused with [ValueError] when the
    argument is converted. *)
Definition is_intp (d : Z) : bool := (- max_intp - 1 <=? d) && (d <=? max_intp).

(** The shapes numpy builds arrays of, for elements of [size] bytes: no
    dimension is negative, and the bytes of the array, with the
    dimensions of 0 left out of the count, do not exceed [max_intp]. Any
    other shape is refused with [ValueError]. *)
Definition shape_ok (size : Z) (shape : list Z) : bool :=
  forallb (fun d => (0 <=? d) && (d <=? max_intp)) shape
  && (size * product (filter (fun d => d <> 0) shape) <=? max_intp).

(** The size in bytes of the elements of a [dtype]. *)
Definition itemsize (dtype : string) : Z :=
  from_option fmt_size 0 (format_of dtype).

(** [np.ndarray(shape, dtype, buffer, offset, strides)]: a view of
    [buffer]. The arguments are converted in this order; the view is
    refused for a shape numpy does not build and, as modelled here, for
    a buffer too short for the shape and strides. (An empty buffer is
    too short for a shape without a dimension of 0; numpy does not
    check it against the shape, and what the view then shows lies
    outside the buffer. The statements below on what a fast decoder
    returns are about complete payloads.) *)
Definition np_ndarray (shape : list Z) (dtype : string) (buffer : bytes)
    (offset : Z) (strides : list Z) : outcome ndarray :=
  if negb (forallb is_intp shape) then Raise ValueError
  else
    fm <- or_raise (format_of dtype) TypeError ;;
    if negb (forallb is_intp strides) then Raise ValueError
    else if negb (length strides =? length shape)%nat then Raise ValueError
    else if negb (check_strides (fmt_size fm) shape strides
                    (Z.of_nat (length buffer)) offset) then Raise ValueError
    else if negb (shape_ok (fmt_size fm) shape) then Raise ValueError
    else
      Ret {| shape := shape;
             data := map (fun o => item fm (slice buffer o (fmt_size fm)))
                         (offsets shape strides offset) |}.

(** [a.reshape(newshape)] for an array of elements of [size] bytes: one
    negative entry is inferred from the number of elements; the new
    shape must hold that number and be one numpy builds. *)
Definition np_reshape (size : Z) (a : ndarray) (newshape : list Z)
    : outcome ndarray :=
  let n := Z.of_nat (length (data a)) in
  if negb (forallb is_intp newshape) then Raise ValueError
  else
    r <- match filter (fun d => d < 0) newshape with
         | [] =>
             if product newshape =? n
             then Ret {| shape := newshape; data := data a |}
             else Raise ValueError
         | [_] =>
             let known := product (filter (fun d => 0 <= d) newshape) in
             if (known =? 0) || negb (n mod known =? 0) then Raise ValueError
             else Ret {| shape := map (fun d => if d <? 0 then n / known else d)
                                      newshape;
                         data := data a |}
         | _ => Raise ValueError
         end ;;
    if shape_ok size (shape r) then Ret r else Raise ValueError.

(** [np.empty(shape, dtype)] for a [dtype] of [size] bytes: the shape
    must be one numpy builds. *)
Definition np_empty_check (size : Z) (shape : list Z) : outcome unit :=
  if shape_ok size shape then Ret tt else Raise ValueError.

(** What [unpack] returns: an array, or [None] when it falls off its
    end. *)
Definition pyval := option ndarray.

(** ** The decoders *)

Section Decoders.
Context `{Builtins}.

(** [int(headers[key])]. *)
Definition nodes (headers : gmap string hval) (key : string) : outcome Z :=
  v <- hget headers key ;; hval_int v.

(** [float(b)] on a bytes token: ASCII only, and the separators 0x1c to
    0x1f, blanks of [str], are no blanks of [bytes]. *)
Definition bytes_float (b : bytes) : outcome float :=
  if forallb (fun c => (byte_val c <? 128)
                       && negb ((28 <=? byte_val c) && (byte_val c <=? 31))) b
  then to_float (map byte_val b)
  else Raise ValueError.

(** [headers.get('valuemultiplier', 1)] as the factor of [data * _]. *)
Definition multiplier (headers : gmap string hval) : outcome float :=
  match default (HInt 1) (headers !! "valuemultiplier"%string) with
  | HInt z => Ret (float_of_int z)
  | HFloat x => Ret x
  | _ => Raise TypeError
  end.

(** [for _ in range(n): body], the results concatenated. *)
Fixpoint repeat_io (n : nat) (body : io (list float)) : io (list float) :=
  match n with
  | O => io_ret []
  | S n' =>
      xs <~ body ;;
      rest <~ repeat_io n' body ;;
      io_ret (xs ++ rest)
  end.

(** One cell of the text payload: a line of three numbers. *)
Definition text_cell : io (list float) :=
  raw <~ f_readline ;;
  lift (
    let text := bytes_split (bytes_strip raw) in
    t0 <- getitem text 0 ;; x0 <- bytes_float t0 ;;
    t1 <- getitem text 1 ;; x1 <- bytes_float t1 ;;
    t2 <- getitem text 2 ;; x2 <- bytes_float t2 ;;
    Ret [x0; x1; x2]).

Definition _text_decode (headers : gmap string hval) : io ndarray :=
  zs <~ lift (nodes headers "znodes") ;;
  ys <~ lift (nodes headers "ynodes") ;;
  xs <~ lift (nodes headers "xnodes") ;;
  _ <~ lift (np_empty_check 8 [zs; ys; xs; 3]) ;;
  cells <~ repeat_io (Z.to_nat zs)
             (repeat_io (Z.to_nat ys) (repeat_io (Z.to_nat xs) text_cell)) ;;
  m <~ lift (multiplier headers) ;;
  io_ret {| shape := [zs; ys; xs; 3];
            data := map (fun x => float_mul x m) cells |}.

Definition _fast_binary_decode (chunk_size : Z)
    (headers : gmap string hval) (dtype : string) : io ndarray :=
  xs <~ lift (nodes headers "xnodes") ;;
  ys <~ lift (nodes headers "ynodes") ;;
  zs <~ lift (nodes headers "znodes") ;;
  buffer <~ f_read (xs * ys * zs * 3 * chunk_size) ;;
  lift (
    ret <- np_ndarray [xs * ys * zs; 3] dtype buffer 0
             [3 * chunk_size; chunk_size] ;;
    np_reshape (itemsize dtype) ret [zs; ys; xs; 3]).

Definition _fast_binary_decode_scalars (chunk_size : Z)
    (headers : gmap string hval) (dtype : string) : io ndarray :=
  xs <~ lift (nodes headers "xnodes") ;;
  ys <~ lift (nodes headers "ynodes") ;;
  zs <~ lift (nodes headers "znodes") ;;
  buffer <~ f_read (xs * ys * zs * chunk_size) ;;
  lift (
    ret <- np_ndarray [xs * ys * zs; 1] dtype buffer 0
             [chunk_size; chunk_size] ;;
    np_reshape (itemsize dtype) ret [zs; ys; xs]).

(** [headers['data_type'][i]]. *)
Definition data_type (headers : gmap string hval) (i : Z) : outcome str :=
  v <- hget headers "data_type" ;;
  match v with
  | HList l => getitem l i
  | _ => Raise TypeError
  end.

(** The body of [unpack] under [with path.open('rb') as f]. *)
Definition unpack_file (fuel : nat) : io pyval :=
  headers <~ _read_header fuel ;;
  kind <~ lift (data_type headers 3) ;;
  if decide (kind = lit "Text") then
    a <~ _text_decode headers ;; io_ret (Some a)
  else if decide (kind = lit "Binary") then
    width <~ lift (data_type headers 4) ;;
    chunk_size <~ lift (or_raise (py_int width) ValueError) ;;
    dtype <~ _endianness chunk_size ;;
    a <~ _fast_binary_decode chunk_size headers dtype ;;
    io_ret (Some a)
  else io_ret None.

(** The body of [unpack_scalars]. *)
Definition unpack_scalars_file (fuel : nat) : io ndarray :=
  headers <~ _read_header fuel ;;
  kind <~ lift (data_type headers 3) ;;
  if decide (kind = lit "Binary") then
    width <~ lift (data_type headers 4) ;;
    chunk_size <~ lift (or_raise (py_int width) ValueError) ;;
    dtype <~ _endianness chunk_size ;;
    _fast_binary_decode_scalars chunk_size headers dtype
  else fun _ => Raise NotImplementedError.
End Decoders.

(** ** Paths and the file system *)

(** A [pathlib.Path]: its parts. *)
Definition path := list string.

(** Modelled from the spec: [ioutil.pathize], the path-normalization
    utility of the package, is not among the sources; it hands back the
    [pathlib.Path] of its argument. *)
Definition pathize (p : path) : path := p.

Definition path_name (p : path) : string := List.last p EmptyString.
Definition path_parent (p : path) : path := removelast p.

(** The index of the last ["."] of [cs], counting from [i]. *)
Fixpoint rfind_dot (cs : list ascii) (i : Z) : option Z :=
  match cs with
  | [] => None
  | c :: cs' =>
      match rfind_dot cs' (i + 1) with
      | Some j => Some j
      | None => if Ascii.eqb c "."%char then Some i else None
      end
  end.

(** [path.suffix]: the last dot of the name and what follows, unless the
    dot is the first or the last character. *)
Definition path_suffix (p : path) : string :=
  let cs := list_ascii_of_string (path_name p) in
  match rfind_dot cs 0 with
  | Some i =>
      if (0 <? i) && (i <? Z.of_nat (length cs) - 1)
      then string_of_list_ascii (drop (Z.to_nat i) cs)
      else EmptyString
  | None => EmptyString
  end.

(** Matching a name against a pattern of literal characters and ["*"]. *)
Fixpoint fnmatch (pat : list ascii) : list ascii -> bool :=
  match pat with
  | [] => fun name => match name with [] => true | _ => false end
  | c :: pat' =>
      if Ascii.eqb c "*"%char then
        fix star (name : list ascii) : bool :=
          fnmatch pat' name ||
          match name with
          | [] => false
          | _ :: name' => star name'
          end
      else
        fun name =>
          match name with
          | d :: name' => Ascii.eqb c d && fnmatch pat' name'
          | [] => false
          end
  end.

Definition matches (pattern name : string) : bool :=
  fnmatch (list_ascii_of_string pattern) (list_ascii_of_string name).

Inductive node : Type :=
| File (content : bytes)
| Dir.

(** [dir.glob(pattern)] for a pattern without separators: the entries of
    the directory [dir] whose name matches, in the order the file system
    lists them; nothing when [dir] is not a directory. *)
Definition glob (fs : gmap path node) (dir : path) (pattern : string)
    : list path :=
  match fs !! dir with
  | Some Dir =>
      filter (fun p => p ≠ [] ∧ path_parent p = dir
                       ∧ matches pattern (path_name p) = true)
             (map fst (map_to_list fs))
  | _ => []
  end.

(** [p < q] on paths compares the parts, [p <= q] is its reflexive
    closure. *)
Fixpoint path_leb (p q : path) : bool :=
  match p, q with
  | [], _ => true
  | _ :: _, [] => false
  | a :: p', b :: q' =>
      match String.compare a b with
      | Lt => true
      | Gt => false
      | Eq => path_leb p' q'
      end
  end.

Definition path_le (p q : path) : Prop := path_leb p q = true.

#[export] Instance path_le_dec (p q : path) : Decision (path_le p q) :=
  decide (path_leb p q = true).

Definition sorted (l : list path) : list path := merge_sort path_le l.

(** [path.open('rb')]. *)
Definition open (fs : gmap path node) (p : path) : outcome stream :=
  match fs !! p with
  | Some (File content) => Ret content
  | Some Dir => Raise IsADirectoryError
  | None => Raise FileNotFoundError
  end.

(** What [np.array] makes of a list of [unpack] results. *)
Inductive nparray : Type :=
| Numeric (a : ndarray)
| Objects (l : list pyval).

Definition val_shape (v : pyval) : list Z :=
  match v with Some a => shape a | None => [] end.

(** [np.array(l)]: the elements stacked along a new leading axis. A list
    of [None]s gives an object array; elements of unequal shapes are
    refused (numpy 1.24 and later). The size limit of [shape_ok] bears
    on the stack as on any array; the arrays of this model carry no
    element size, so the limit is a hypothesis of the statements about
    stacks and no check made here. *)
Definition np_array (l : list pyval) : outcome nparray :=
  match l with
  | [] => Ret (Numeric {| shape := [0]; data := [] |})
  | v :: _ =>
      if forallb (fun w => bool_decide (val_shape w = val_shape v)) l then
        match v with
        | None =>
            if forallb (fun w => bool_decide (w = None :> pyval)) l
            then Ret (Objects l) else Raise ValueError
        | Some a =>
            Ret (Numeric
                   {| shape := Z.of_nat (length l) :: shape a;
                      data := concat (map (fun w => from_option data [] w) l) |})
        end
      else Raise ValueError
  end.

(** ** The entry points *)

Section EntryPoints.
Context `{Builtins}.

Definition unpack (fuel : nat) (fs : gmap path node) (p : path)
    : outcome pyval :=
  f <- open fs (pathize p) ;;
  r <- unpack_file fuel f ;;
  Ret (fst r).

Definition unpack_scalars (fuel : nat) (fs : gmap path node) (p : path)
    : outcome ndarray :=
  f <- open fs (pathize p) ;;
  r <- unpack_scalars_file fuel f ;;
  Ret (fst r).

(** [[unpack(f) for f in files]]. *)
Fixpoint unpack_all (fuel : nat) (fs : gmap path node) (files : list path)
    : outcome (list pyval) :=
  match files with
  | [] => Ret []
  | f :: files' =>
      v <- unpack fuel fs f ;;
      vs <- unpack_all fuel fs files' ;;
      Ret (v :: vs)
  end.

(** The local variable [files] after the [if/elif]: [None] when no
    branch assigned it. *)
Definition group_files (fs : gmap path node) (p : path)
    : option (list path) :=
  if decide (path_suffix p = ".out"%string) then
    Some (sorted (glob fs p "m*.ovf"))
  else if decide (path_suffix p = ".ovf"%string) then
    Some (sorted (glob fs (path_parent p) "m*.ovf"))
  else None.

(** [tqdm.tqdm(files)] hands out the elements of [files] in order. *)
Definition group_unpack (fuel : nat) (fs : gmap path node) (p : path)
    : outcome nparray :=
  let p := pathize p in
  files <- or_raise (group_files fs p) (UnboundLocalError "files") ;;
  vs <- unpack_all fuel fs files ;;
  np_array vs.
End EntryPoints.

(** ** Concrete files *)

Definition nl : string := String "010"%char EmptyString.

(** The header lines [l], each ended by a newline. *)
Definition header_of (l : list string) : bytes :=
  blit (fold_right (fun s acc => s ++ nl ++ acc)%string EmptyString l).

(** The control marks: 1234567.0 as a [float32] and 123456789012345.0 as
    a [float64], most significant byte first. *)
Definition mark4 : bytes := [x49; x96; xb4; x38].
Definition mark8 : bytes := [x42; xdc; x12; x21; x83; x77; xde; x40].

(** 1.0 ... 6.0 as little-endian [float32]. *)
Definition f32le_1_to_6 : bytes :=
  [x00; x00; x80; x3f;  x00; x00; x00; x40;  x00; x00; x40; x40;
   x00; x00; x80; x40;  x00; x00; xa0; x40;  x00; x00; xc0; x40].

(** 1.0, 2.0, 3.0 as little-endian [float64]. *)
Definition f64le_1_to_3 : bytes :=
  [x00; x00; x00; x00; x00; x00; xf0; x3f;
   x00; x00; x00; x00; x00; x00; x00; x40;
   x00; x00; x00; x00; x00; x00; x08; x40].

(** The example of the specification: nx = 2, ny = nz = 1, width 4,
    little-endian, payload 1 ... 6, no [valuemultiplier]. *)
Definition file_example : bytes :=
  header_of ["# xnodes: 2"; "# ynodes: 1"; "# znodes: 1";
             "# Begin: Data Binary 4"]%string
  ++ rev mark4 ++ f32le_1_to_6.

(** The same payload under [valuemultiplier: 2]. *)
Definition file_vector_x2 : bytes :=
  header_of ["# xnodes: 2"; "# ynodes: 1"; "# znodes: 1";
             "# valuemultiplier: 2"; "# Begin: Data Binary 4"]%string
  ++ rev mark4 ++ f32le_1_to_6.

(** A scalar field of two cells, 1.0 and 2.0, under
    [valuemultiplier: 2]. *)
Definition file_scalar_x2 : bytes :=
  header_of ["# xnodes: 2"; "# ynodes: 1"; "# znodes: 1";
             "# valuemultiplier: 2"; "# Begin: Data Binary 4"]%string
  ++ rev mark4 ++ take 8 f32le_1_to_6.

(** One cell (1, 2, 3) under [valuemultiplier: 2], as text and as
    8-byte binary. *)
Definition file_cell_text : bytes :=
  header_of ["# xnodes: 1"; "# ynodes: 1"; "# znodes: 1";
             "# valuemultiplier: 2"; "# Begin: Data Text";
             "1 2 3"; "# End: Data Text"]%string.

Definition file_cell_binary : bytes :=
  header_of ["# xnodes: 1"; "# ynodes: 1"; "# znodes: 1";
             "# valuemultiplier: 2"; "# Begin: Data Binary 8"]%string
  ++ rev mark8 ++ f64le_1_to_3.

(** One cell (1, 2, 3) and one cell (4, 5, 6) as text, no multiplier. *)
Definition file_step (v : string) : bytes :=
  header_of ["# xnodes: 1"; "# ynodes: 1"; "# znodes: 1";
             "# Begin: Data Text"; v]%string.

(** A header as the simulators write it, followed by the big-endian
    control mark. *)
Definition file_oommf : bytes :=
  header_of ["# OOMMF: rectangular mesh v1.0"; "# Segment count: 1";
             "# Begin: Segment"; "# Begin: Header"; "# Title: m";
             "# Desc: Total simulation time:  2.5e-09  s";
             "# Desc: Iteration: 12, State id: 4";
             "# Desc: Stage: 3, Stage iteration: 7";
             "# Desc: MIF source file: /home/user/run.mif";
             "# meshunit: m"; "# xbase: 1e-09"; "# xstepsize: 2e-09";
             "# xnodes: 128"; "# ynodes: 64"; "# znodes: 1";
             "# End: Header"; "# Begin: Data Binary 4"]%string
  ++ mark4.

(** A marker line whose encoding token is neither [Text] nor
    [Binary]. *)
Definition file_hex : bytes :=
  header_of ["# xnodes: 1"; "# ynodes: 1"; "# znodes: 1";
             "# Begin: Data Hex 4"]%string.

Definition fs_files : gmap path node :=
  <[["example.ovf"] := File file_example]>
  (<[["vector.ovf"] := File file_vector_x2]>
  (<[["scalar.ovf"] := File file_scalar_x2]>
  (<[["text.ovf"] := File file_cell_text]>
  (<[["binary.ovf"] := File file_cell_binary]>
  (<[["hex.ovf"] := File file_hex]> ∅)))))%string.

(** An output directory without field files, and two directories with
    the same two steps, one named with the [.out] suffix and one
    without. *)
Definition fs_runs : gmap path node :=
  <[["empty.out"] := Dir]>
  (<[["empty.out"; "table.txt"] := File []]>
  (<[["run.out"] := Dir]>
  (<[["run.out"; "m000001.ovf"] := File (file_step "4 5 6")]>
  (<[["run.out"; "m000000.ovf"] := File (file_step "1 2 3")]>
  (<[["run"] := Dir]>
  (<[["run"; "m000001.ovf"] := File (file_step "4 5 6")]>
  (<[["run"; "m000000.ovf"] := File (file_step "1 2 3")]> ∅)))))))%string.

(** The floats 1.0 ... 6.0 as [float32] and [float64] values. *)
Definition f32 (z : Z) : float := binary_normalize 24 128 z 0 false.
Definition f64 (z : Z) : float := float_of_int z.

(** ** Notions of the statements *)

(** The raw lines of a stream, as successive [readline]s return them;
    [n] bounds their number. *)
Fixpoint raw_lines (n : nat) (f : stream) : list bytes :=
  match n, f with
  | S n', _ :: _ => let '(raw, rest) := readline f in raw :: raw_lines n' rest
  | _, _ => []
  end.

(** [marker_free f]: no line of [f] shows the marker once stripped and
    decoded. *)
Definition marker_free (f : stream) : Prop :=
  forall raw line,
    In raw (raw_lines (length f) f) ->
    decode (bytes_strip raw) = Ret line ->
    contains (lit "Begin: Data") line = false.

(** The magic constant of a width, its control mark written most
    significant byte first, the name of a byte order, and the float or
    double that [w] bytes spell in a byte order. *)
Definition magic (w : Z) : float :=
  float_of_int (if w =? 4 then 1234567 else 123456789012345).

Definition mark (w : Z) : bytes := if w =? 4 then mark4 else mark8.

Definition order_name (big : bool) (w : Z) : string :=
  match big, (w =? 4)%Z with
  | true, true => ">f"%string
  | true, false => ">d"%string
  | false, true => "<f"%string
  | false, false => "<d"%string
  end.

Definition interpretation (big : bool) (w : Z) (buffer : bytes) : float :=
  float_of_bits (if w =? 4 then 23 else 52) (if w =? 4 then 8 else 11)
    (if big then be_int buffer else le_int buffer).

(** [a[idx]] for a full index: the element at the C-order position of
    [idx], every index being within its axis. *)
Fixpoint flat_index (shape idx : list Z) (acc : Z) : option Z :=
  match shape, idx with
  | [], [] => Some acc
  | d :: shape', i :: idx' =>
      if (0 <=? i) && (i <? d) then flat_index shape' idx' (acc * d + i)
      else None
  | _, _ => None
  end.

Definition np_getitem (a : ndarray) (idx : list Z) : option float :=
  match flat_index (shape a) idx 0 with
  | Some n => data a !! Z.to_nat n
  | None => None
  end.

(** The value number [n] of a payload of [fm] values. *)
Definition payload_value (fm : format) (payload : bytes) (n : Z) : float :=
  item fm (slice payload (n * fmt_size fm) (fmt_size fm)).

(** An array is well formed when it holds as many elements as its shape
    says. *)
Definition well_formed (a : ndarray) : Prop :=
  product (shape a) = Z.of_nat (length (data a)).

(** [a[i]]: the sub-array at position [i] of the leading axis. *)
Definition subarray (a : ndarray) (i : nat) : ndarray :=
  let s := tail (shape a) in
  let n := Z.to_nat (product s) in
  {| shape := s; data := take n (drop (i * n) (data a)) |}.

(** The bytes of an array of [size]-byte elements with the dimensions
    [dims], as numpy counts them for its size limit: a dimension of 0
    counts as 1. *)
Definition array_bytes (size : Z) (dims : list Z) : Z :=
  size * product (map (Z.max 1) dims).

(** ** The loop-based decoder and [unpack_slow] *)

(** Precision and exponent bound of a format, and the value an array of
    that format keeps of [x]: [x] rounded to the format. *)
Definition fmt_prec (fm : format) : Z := fmt_mw fm + 1.
Definition fmt_emax (fm : format) : Z := 2 ^ (fmt_ew fm - 1).

Definition np_store (fm : format) (x : float) : float :=
  match x with
  | S754_finite s m e =>
      binary_normalize (fmt_prec fm) (fmt_emax fm)
        (if s then Z.neg m else Z.pos m) e s
  | _ => x
  end.

(** [a * m] for an element [x] of an array of format [fm] and a Python
    scalar [m]: the product in the format of the array (numpy 2; before,
    a factor beyond the range of [float32] promoted the product to
    [float64]). *)
Definition np_multiply (fm : format) (x m : float) : float :=
  SFmul (fmt_prec fm) (fmt_emax fm) x (np_store fm m).

(** [struct.Struct(endianness)], for the formats of the module. *)
Definition _byte_decoder (endianness : string) : outcome format :=
  or_raise (format_of endianness) StructError.

(** [decoder.unpack(b)[0]]. *)
Definition decoder_unpack (decoder : format) (b : bytes) : outcome float :=
  if Z.of_nat (length b) =? fmt_size decoder
  then Ret (item decoder b)
  else Raise StructError.

(** The global names of the module that hold integers: none. [None] is
    Python's [NameError]. *)
Definition module_globals : gmap string Z := ∅.

(** What leaves [unpack_slow]: the [NameError] of a name that is not
    defined, or the outcome of the rest of the body. *)
Inductive slow_outcome : Type :=
| NameError (name : string)
| Finished (r : outcome (pyval * stream)).

Section SlowDecoder.
Context `{Builtins}.

(** [data[k, j, i, coord] = decoder.unpack(f.read(chunk_size))[0]]. *)
Definition read_value (chunk_size : Z) (decoder fm : format)
    : io (list float) :=
  b <~ f_read chunk_size ;;
  x <~ lift (decoder_unpack decoder b) ;;
  io_ret [np_store fm x].

Definition _binary_decode (chunk_size : Z) (decoder : format)
    (headers : gmap string hval) (dtype : string) : io ndarray :=
  zs <~ lift (nodes headers "znodes") ;;
  ys <~ lift (nodes headers "ynodes") ;;
  xs <~ lift (nodes headers "xnodes") ;;
  _ <~ lift (if forallb is_intp [zs; ys; xs; 3] then Ret tt
             else Raise ValueError) ;;
  fm <~ lift (or_raise (format_of dtype) TypeError) ;;
  _ <~ lift (np_empty_check (fmt_size fm) [zs; ys; xs; 3]) ;;
  cells <~ repeat_io (Z.to_nat zs)
             (repeat_io (Z.to_nat ys)
                (repeat_io (Z.to_nat xs)
                   (repeat_io 3 (read_value chunk_size decoder fm)))) ;;
  m <~ lift (multiplier headers) ;;
  io_ret {| shape := [zs; ys; xs; 3];
            data := map (fun x => np_multiply fm x m) cells |}.

(** The body of [unpack_slow] under [with path.open('rb') as f]. In the
    binary branch the argument [nbytes] of [_endianness] is a name that
    nothing defines. *)
Definition unpack_slow_file (fuel : nat) (f : stream) : slow_outcome :=
  match _read_header fuel f with
  | Ret (headers, f1) =>
      match data_type headers 3 with
      | Ret kind =>
          if decide (kind = lit "Text") then
            Finished ((a <~ _text_decode headers ;; io_ret (Some a)) f1)
          else if decide (kind = lit "Binary") then
            match (width <- data_type headers 4 ;;
                   or_raise (py_int width) ValueError) with
            | Ret chunk_size =>
                match module_globals !! "nbytes"%string with
                | None => NameError "nbytes"
                | Some nbytes =>
                    Finished
                      ((endianness <~ _endianness nbytes ;;
                        decoder <~ lift (_byte_decoder endianness) ;;
                        a <~ _binary_decode chunk_size decoder headers
                               endianness ;;
                        io_ret (Some a)) f1)
                end
            | Raise e => Finished (Raise e)
            | OutOfFuel => Finished OutOfFuel
            end
          else Finished (Ret (None, f1))
      | Raise e => Finished (Raise e)
      | OutOfFuel => Finished OutOfFuel
      end
  | Raise e => Finished (Raise e)
  | OutOfFuel => Finished OutOfFuel
  end.

Definition unpack_slow (fuel : nat) (fs : gmap path node) (p : path)
    : slow_outcome :=
  match open fs (pathize p) with
  | Ret f => unpack_slow_file fuel f
  | Raise e => Finished (Raise e)
  | OutOfFuel => Finished OutOfFuel
  end.
End SlowDecoder.

(** ** More notions of the statements *)

(** The header of [file_vector_x2] as [_read_header] returns it, and the
    format ['<f']. *)
Definition headers_vector_x2 : gmap string hval :=
  <["data_type" := HList (str_split (lit "# Begin: Data Binary 4"))]>
  (<["valuemultiplier" := HFloat (f64 2)]>
  (<["znodes" := HFloat (f64 1)]>
  (<["ynodes" := HFloat (f64 1)]>
  (<["xnodes" := HFloat (f64 2)]> header_defaults)))).

Definition float32_le : format :=
  {| fmt_big := false; fmt_mw := 23; fmt_ew := 8; fmt_size := 4 |}.



(** The header of [file_step v] as [_read_header] returns it. *)
Definition headers_step : gmap string hval :=
  <["data_type" := HList (str_split (lit "# Begin: Data Text"))]>
  (<["znodes" := HFloat (f64 1)]>
  (<["ynodes" := HFloat (f64 1)]>
  (<["xnodes" := HFloat (f64 1)]> header_defaults))).

(** The header of [file_cell_text] as [_read_header] returns it. *)
Definition headers_cell_x2 : gmap string hval :=
  <["data_type" := HList (str_split (lit "# Begin: Data Text"))]>
  (<["valuemultiplier" := HFloat (f64 2)]>
  (<["znodes" := HFloat (f64 1)]>
  (<["ynodes" := HFloat (f64 1)]>
  (<["xnodes" := HFloat (f64 1)]> header_defaults)))).

(** A line of a text payload: bytes other than the newline, then the
    newline. *)
Definition is_line (raw : bytes) : Prop :=
  exists body,
    raw = body ++ [x0a] /\ Forall (fun b => byte_val b <> 10) body.

Section PayloadLines.
Context `{Builtins}.

(** [cell_line raw xs]: [raw] is a line whose first three
    blank-separated tokens are read by [float] as the three numbers
    [xs]. *)
Definition cell_line (raw : bytes) (xs : list float) : Prop :=
  is_line raw
  /\ exists t0 t1 t2 more x0 x1 x2,
       bytes_split (bytes_strip raw) = t0 :: t1 :: t2 :: more
       /\ bytes_float t0 = Ret x0
       /\ bytes_float t1 = Ret x1
       /\ bytes_float t2 = Ret x2
       /\ xs = [x0; x1; x2].

(** [factor headers m]: [m] is what the header gives for
    [valuemultiplier], and 1 when the header has no such key. *)
Definition factor (headers : gmap string hval) (m : float) : Prop :=
  headers !! "valuemultiplier"%string = Some (HFloat m)
  \/ (headers !! "valuemultiplier"%string = None /\ m = float_of_int 1).
End PayloadLines.

(** A header cut before its marker line. *)
Definition file_truncated : bytes :=
  header_of ["# xnodes: 2"; "# ynodes: 1"]%string.

(** A directory whose second step lacks a number and whose third step is
    cut before its marker line. *)
Definition fs_broken : gmap path node :=
  <[["bad.out"] := Dir]>
  (<[["bad.out"; "m000000.ovf"] := File (file_step "1 2 3")]>
  (<[["bad.out"; "m000001.ovf"] := File (file_step "4 5")]>
  (<[["bad.out"; "m000002.ovf"] := File file_truncated]> ∅)))%string.

(** * Verification *)

(** ** The header reader at the end of the stream *)

Lemma readline_length (f : stream) :
  (length (readline f).1 + length (readline f).2 = length f)%nat.
Proof.
  induction f as [|b f IH]; [reflexivity|].
  cbn [readline]. destruct (byte_val b =? 10); [reflexivity|].
  destruct (readline f) as [raw rest]. cbn in *. lia.
Qed.

Lemma readline_progress (b : byte) (f : stream) :
  (length (readline (b :: f)).2 < length (b :: f))%nat.
Proof.
  pose proof (readline_length (b :: f)) as Hlen.
  assert (0 < length (readline (b :: f)).1)%nat; [|lia].
  cbn [readline]. destruct (byte_val b =? 10); [cbn; lia|].
  destruct (readline f); cbn; lia.
Qed.

Lemma raw_lines_enough (n m : nat) (f : stream) :
  (length f <= n)%nat -> (length f <= m)%nat -> raw_lines n f = raw_lines m f.
Proof.
  revert m f. induction n as [|n IH]; intros m f Hn Hm.
  - destruct f; [|cbn in Hn; lia]. destruct m; reflexivity.
  - destruct f as [|b f]; [destruct m; reflexivity|].
    destruct m as [|m]; [cbn in Hm; lia|].
    cbn [raw_lines]. pose proof (readline_progress b f) as Hlt.
    destruct (readline (b :: f)) as [raw rest]. cbn [snd] in Hlt.
    cbn [length] in *. f_equal. apply IH; lia.
Qed.

Lemma marker_free_rest (b : byte) (f : stream) :
  marker_free (b :: f) -> marker_free (readline (b :: f)).2.
Proof.
  intros Hfree raw line Hin Hdec. apply (Hfree raw line); [|exact Hdec].
  pose proof (readline_progress b f) as Hlt.
  cbn [length raw_lines]. destruct (readline (b :: f)) as [raw0 rest].
  cbn [snd] in *. right.
  rewrite (raw_lines_enough _ (length rest)); [exact Hin| cbn in Hlt; lia | lia].
Qed.

Lemma marker_free_first (b : byte) (f : stream) (line : str) :
  marker_free (b :: f) ->
  decode (bytes_strip (readline (b :: f)).1) = Ret line ->
  contains (lit "Begin: Data") line = false.
Proof.
  intros Hfree Hdec. apply (Hfree (readline (b :: f)).1 line); [|exact Hdec].
  cbn [length raw_lines]. destruct (readline (b :: f)). left. reflexivity.
Qed.

Section HeaderFacts.
Context `{Builtins}.

(** One iteration of the header loop. *)
Lemma header_loop_step (fuel : nat) (line : str)
    (headers : gmap string hval) (f : stream) :
  contains (lit "Begin: Data") line = false ->
  header_loop (S fuel) line headers f =
    (line' <- decode (bytes_strip (readline f).1) ;;
     headers' <- header_line line' headers ;;
     header_loop fuel line' headers' (readline f).2).
Proof.
  intros Hline. cbn [header_loop]. rewrite Hline.
  unfold io_bind at 1. unfold f_readline. destruct (readline f) as [raw rest].
  unfold io_bind at 1. unfold lift at 1. cbn [fst snd].
  destruct (decode (bytes_strip raw)) as [line'| |]; cbn [obind]; try reflexivity.
  unfold io_bind, lift.
  destruct (header_line line' headers); reflexivity.
Qed.

Lemma header_loop_done (fuel : nat) (line : str)
    (headers : gmap string hval) (f : stream) :
  contains (lit "Begin: Data") line = true ->
  header_loop fuel line headers f
  = Ret (<["data_type" := HList (str_split line)]> headers, f).
Proof.
  intros Hline. destruct fuel; cbn [header_loop]; rewrite Hline; reflexivity.
Qed.

(** Once the stream is exhausted, an iteration of the header loop reads
    the empty line and changes nothing: the loop goes on for as long as
    it is given fuel. *)
Lemma header_loop_eof (fuel : nat) (headers : gmap string hval) :
  header_loop fuel [] headers [] = OutOfFuel.
Proof.
  induction fuel as [|fuel IH]; [reflexivity|].
  rewrite header_loop_step by reflexivity. exact IH.
Qed.

Lemma header_loop_exhausted (fuel : nat) (line : str)
    (headers : gmap string hval) :
  contains (lit "Begin: Data") line = false ->
  header_loop fuel line headers [] = OutOfFuel.
Proof.
  intros Hline. destruct fuel as [|fuel].
  - cbn [header_loop]. rewrite Hline. reflexivity.
  - rewrite header_loop_step by assumption. apply header_loop_eof.
Qed.

(** Without a marker line the loop never hands back a header, whatever
    the fuel: it raises on a line it cannot parse, or it is still
    running. *)
Lemma header_loop_marker_free (fuel : nat) (line : str)
    (headers : gmap string hval) (f : stream) :
  contains (lit "Begin: Data") line = false ->
  marker_free f ->
  forall r, header_loop fuel line headers f <> Ret r.
Proof.
  revert line headers f.
  induction fuel as [|fuel IH]; intros line headers f Hline Hfree r.
  - cbn [header_loop]. rewrite Hline. discriminate.
  - destruct f as [|b f]; [rewrite header_loop_exhausted by assumption; discriminate|].
    rewrite header_loop_step by assumption.
    destruct (decode (bytes_strip (readline (b :: f)).1)) as [line'| |] eqn:Hdec;
      cbn [obind]; try discriminate.
    destruct (header_line line' headers) as [headers'| |];
      cbn [obind]; try discriminate.
    apply IH; [exact (marker_free_first b f line' Hfree Hdec)|].
    apply marker_free_rest, Hfree.
Qed.

(** X1. On a stream none of whose lines shows the marker, the header
    reader never returns a header, whatever the number of iterations
    allowed: it raises on a line it cannot parse or runs on. *)
Lemma read_header_marker_free (fuel : nat) (f : stream) :
  marker_free f -> forall r, _read_header fuel f <> Ret r.
Proof. intros Hfree. apply header_loop_marker_free; [reflexivity|exact Hfree]. Qed.

(** C4. On the empty stream the header reader neither returns a header
    nor raises an error: whatever the number of iterations allowed, the
    loop is still running. *)
Theorem read_header_truncated_runs_forever (fuel : nat) :
  _read_header fuel [] = OutOfFuel.
Proof. apply header_loop_eof. Qed.
End HeaderFacts.

Section HeaderFuel.
Context `{Builtins}.

(** Fuel is only a bound: a run that ended keeps its result under more
    fuel. *)
Lemma header_loop_more_fuel (fuel fuel' : nat) (line : str)
    (headers : gmap string hval) (f : stream) :
  header_loop fuel line headers f <> OutOfFuel ->
  (fuel <= fuel')%nat ->
  header_loop fuel' line headers f = header_loop fuel line headers f.
Proof.
  revert fuel' line headers f.
  induction fuel as [|fuel IH]; intros fuel' line headers f Hend Hle.
  - destruct (contains (lit "Begin: Data") line) eqn:Hline.
    + rewrite !header_loop_done by exact Hline. reflexivity.
    + cbn [header_loop] in Hend. rewrite Hline in Hend. congruence.
  - destruct (contains (lit "Begin: Data") line) eqn:Hline.
    + rewrite !header_loop_done by exact Hline. reflexivity.
    + destruct fuel' as [|fuel']; [lia|].
      rewrite header_loop_step in Hend by exact Hline.
      rewrite !header_loop_step by exact Hline.
      destruct (decode (bytes_strip (readline f).1)) as [line'| |];
        cbn [obind] in *; try reflexivity.
      destruct (header_line line' headers) as [headers'| |];
        cbn [obind] in *; try reflexivity.
      apply IH; [exact Hend | lia].
Qed.

(** The pure steps of the loop end: only the loop itself can run out of
    fuel. *)
Lemma obind_ends {A B} (c : outcome A) (k : A -> outcome B) :
  c <> OutOfFuel -> (forall a, k a <> OutOfFuel) -> obind c k <> OutOfFuel.
Proof. destruct c; cbn; auto; discriminate. Qed.

Lemma or_raise_ends {A} (o : option A) (e : exn) : or_raise o e <> OutOfFuel.
Proof. destruct o; discriminate. Qed.

Lemma getitem_ends {A} (l : list A) (i : Z) : getitem l i <> OutOfFuel.
Proof.
  unfold getitem. destruct (_ && _); [apply or_raise_ends | discriminate].
Qed.

Ltac ends :=
  repeat first
    [ apply obind_ends; [|intros ?]
    | apply or_raise_ends
    | apply getitem_ends
    | discriminate ].

Lemma scan_keys_ends (keys : list string) (line : str)
    (headers : gmap string hval) :
  scan_keys keys line headers <> OutOfFuel.
Proof.
  revert headers. induction keys as [|key keys IH]; intros headers;
    cbn [scan_keys]; [discriminate|].
  destruct (contains (lit key) line); [|apply IH].
  unfold to_float. ends. apply IH.
Qed.

Lemma header_line_ends (line : str) (headers : gmap string hval) :
  header_line line headers <> OutOfFuel.
Proof.
  unfold header_line. apply obind_ends; [apply scan_keys_ends|].
  intros headers'. unfold scan_provenance, third_segment, to_float.
  repeat match goal with |- context [if ?b then _ else _] => destruct b end;
    ends.
Qed.

(** A stream with a marker line is read in at most as many iterations as
    it has bytes: the reader returns a header or raises. *)
Lemma header_loop_halts (n : nat) (line : str) (headers : gmap string hval)
    (f : stream) :
  (length f <= n)%nat ->
  (exists raw s,
      In raw (raw_lines n f)
      /\ decode (bytes_strip raw) = Ret s
      /\ contains (lit "Begin: Data") s = true) ->
  header_loop n line headers f <> OutOfFuel.
Proof.
  revert line headers f.
  induction n as [|n IH]; intros line headers f Hlen (raw & s & Hin & Hdec & Hs).
  - destruct f; contradiction.
  - destruct (contains (lit "Begin: Data") line) eqn:Hline;
      [rewrite header_loop_done by exact Hline; discriminate|].
    rewrite header_loop_step by exact Hline.
    destruct f as [|b f]; [contradiction|].
    pose proof (readline_progress b f) as Hlt.
    cbn [raw_lines] in Hin.
    destruct (readline (b :: f)) as [raw0 rest]. cbn [fst snd] in *.
    destruct (decode (bytes_strip raw0)) as [line'| |] eqn:Hdec0; cbn [obind];
      [| discriminate | exfalso; exact (or_raise_ends _ _ Hdec0)].
    destruct (header_line line' headers) as [headers'| |] eqn:Hbody;
      cbn [obind];
      [| discriminate | exfalso; exact (header_line_ends _ _ Hbody)].
    destruct Hin as [<- | Hin].
    + rewrite Hdec in Hdec0. injection Hdec0 as <-.
      rewrite header_loop_done by exact Hs. discriminate.
    + apply IH; [lia|]. exists raw, s. auto.
Qed.

(** X2. On a stream one of whose lines shows the marker, the reader is
    done, with a header or an exception, within [length f] iterations,
    and any larger bound gives the same result. *)
Lemma read_header_halts (fuel : nat) (f : stream) (raw : bytes) (s : str) :
  In raw (raw_lines (length f) f) ->
  decode (bytes_strip raw) = Ret s ->
  contains (lit "Begin: Data") s = true ->
  (length f <= fuel)%nat ->
  _read_header fuel f <> OutOfFuel
  /\ _read_header fuel f = _read_header (length f) f.
Proof.
  intros Hin Hdec Hs Hfuel.
  assert (_read_header (length f) f <> OutOfFuel) as Hend
    by (apply header_loop_halts; [lia | exists raw, s; auto]).
  assert (_read_header fuel f = _read_header (length f) f) as Heq
    by (apply header_loop_more_fuel; assumption).
  split; [rewrite Heq; exact Hend | exact Heq].
Qed.
End HeaderFuel.

(** The reader on a full header: geometry and provenance are parsed, the
    absent [valuemultiplier] stays absent, the marker line is kept as
    tokens, and the cursor is left right after the marker line. *)
Example read_header_full :
  (r <- _read_header 100 file_oommf ;;
   Ret (r.1 !! "xnodes"%string, r.1 !! "ynodes"%string,
        r.1 !! "SimTime"%string, r.1 !! "Iteration"%string,
        r.1 !! "Stage"%string, r.1 !! "MIFSource"%string,
        r.1 !! "valuemultiplier"%string, r.1 !! "data_type"%string, r.2))
  = Ret (Some (HFloat (f64 128)), Some (HFloat (f64 64)),
         HFloat <$> literal_float (lit "2.5e-09"), Some (HFloat (f64 12)),
         Some (HFloat (f64 3)), Some (HStr (lit "/home/user/run.mif")),
         None,
         Some (HList (map lit ["#"; "Begin:"; "Data"; "Binary"; "4"]%string)),
         mark4).
Proof. vm_compute. reflexivity. Qed.

(** ** Entry points: what is returned without decoding *)

Section EntryFacts.
Context `{Builtins}.

(** C6. A file whose marker line carries, at index 3, a token that is
    neither [Text] nor [Binary]: [unpack] falls off the end of its
    [if/elif] and returns [None]; no error is raised. *)
Theorem unpack_unknown_encoding_returns_none (fuel : nat)
    (fs : gmap path node) (p : path) (f rest : stream)
    (headers : gmap string hval) (tokens : list str) (kind : str) :
  open fs p = Ret f ->
  _read_header fuel f = Ret (headers, rest) ->
  headers !! "data_type"%string = Some (HList tokens) ->
  tokens !! 3%nat = Some kind ->
  kind <> lit "Text" ->
  kind <> lit "Binary" ->
  unpack fuel fs p = Ret None.
Proof.
  intros Hopen Hhead Htype Hkind Htext Hbinary.
  unfold unpack, pathize. rewrite Hopen. cbn [obind].
  unfold unpack_file, io_bind at 1. rewrite Hhead.
  unfold io_bind at 1, lift at 1, data_type, hget.
  rewrite Htype. cbn [or_raise obind].
  assert (getitem tokens 3 = Ret kind) as ->.
  { unfold getitem. apply lookup_lt_Some in Hkind as Hlt.
    change (3 <? 0) with false. cbv iota.
    replace ((0 <=? 3) && (3 <? Z.of_nat (length tokens))) with true
      by (symmetry; apply andb_true_intro; split; [reflexivity | apply Z.ltb_lt; lia]).
    change (Z.to_nat 3) with 3%nat. rewrite Hkind. reflexivity. }
  cbn [obind]. rewrite !decide_False by assumption. reflexivity.
Qed.

(** C10. A path whose suffix is neither [.out] nor [.ovf]: the local
    variable [files] is never assigned, and [group_unpack] raises the
    unbound-name error whatever the directory holds. *)
Theorem group_unpack_other_suffix_unbound (fuel : nat)
    (fs : gmap path node) (p : path) :
  path_suffix p <> ".out"%string ->
  path_suffix p <> ".ovf"%string ->
  group_files fs p = None
  /\ group_unpack fuel fs p = Raise (UnboundLocalError "files").
Proof.
  intros Hout Hovf.
  assert (group_files fs p = None) as Hfiles.
  { unfold group_files. rewrite !decide_False by assumption. reflexivity. }
  split; [exact Hfiles|].
  unfold group_unpack, pathize. rewrite Hfiles. reflexivity.
Qed.

(** C5, as the code has it. A directory named [*.out], or a file named
    [*.ovf], with no file matching [m*.ovf] beside it: [group_unpack]
    decodes nothing and returns the empty series, an array of shape
    (0,); no error is raised. *)
Theorem group_unpack_no_match_empty_series (fuel : nat)
    (fs : gmap path node) (p : path) :
  (path_suffix p = ".out"%string /\ glob fs p "m*.ovf" = [])
  \/ (path_suffix p = ".ovf"%string
      /\ glob fs (path_parent p) "m*.ovf" = []) ->
  group_files fs p = Some []
  /\ group_unpack fuel fs p = Ret (Numeric {| shape := [0]; data := [] |}).
Proof.
  intros Hcase.
  assert (group_files fs p = Some []) as Hfiles.
  { unfold group_files. destruct Hcase as [[Hsuf Hglob] | [Hsuf Hglob]].
    - rewrite decide_True by assumption. rewrite Hglob. reflexivity.
    - rewrite decide_False by (rewrite Hsuf; discriminate).
      rewrite decide_True by assumption. rewrite Hglob. reflexivity. }
  split; [exact Hfiles|].
  unfold group_unpack, pathize. rewrite Hfiles. reflexivity.
Qed.
End EntryFacts.

Lemma unpack_unknown_encoding_witness :
  unpack 10 fs_files ["hex.ovf"%string] = Ret None.
Proof.
  apply (unpack_unknown_encoding_returns_none 10 fs_files ["hex.ovf"%string]
           file_hex [] 
           (<["data_type" := HList (str_split (lit "# Begin: Data Hex 4"))]>
              (<["znodes" := HFloat (f64 1)]> (<["ynodes" := HFloat (f64 1)]>
              (<["xnodes" := HFloat (f64 1)]> header_defaults))))
           (str_split (lit "# Begin: Data Hex 4")) (lit "Hex"));
    vm_compute; solve [reflexivity | discriminate].
Defined.

(** On the same file the sibling entry point does raise. *)
Example unpack_scalars_unknown_encoding :
  unpack_scalars 10 fs_files ["hex.ovf"%string] = Raise NotImplementedError.
Proof. vm_compute. reflexivity. Qed.

Lemma group_unpack_other_suffix_witness :
  group_files fs_runs ["run"%string] = None
  /\ group_unpack 10 fs_runs ["run"%string] = Raise (UnboundLocalError "files").
Proof.
  apply (group_unpack_other_suffix_unbound 10 fs_runs ["run"%string]);
    vm_compute; discriminate.
Defined.

(** C5 as stated fails: the directory [empty.out] holds no file matching
    [m*.ovf], and [group_unpack] returns, with no fuel at all, an empty
    array rather than raising. *)
Lemma group_unpack_empty_directory_returns :
  glob fs_runs ["empty.out"%string] "m*.ovf" = []
  /\ group_unpack 0 fs_runs ["empty.out"%string]
     = Ret (Numeric {| shape := [0]; data := [] |})
  /\ ~ (exists e, group_unpack 0 fs_runs ["empty.out"%string] = Raise e).
Proof.
  split; [vm_compute; reflexivity|].
  split; [vm_compute; reflexivity|].
  intros [e He]. vm_compute in He. discriminate.
Qed.

Lemma group_unpack_no_match_witness :
  group_files fs_runs ["empty.out"%string] = Some []
  /\ group_unpack 10 fs_runs ["empty.out"%string]
     = Ret (Numeric {| shape := [0]; data := [] |}).
Proof.
  apply (group_unpack_no_match_empty_series 10 fs_runs ["empty.out"%string]).
  left. split; vm_compute; reflexivity.
Defined.

(** ** Floats and bit patterns *)

(** Evaluate the closed powers of two of a hypothesis. *)
Ltac eval_pow2 H :=
  repeat match type of H with
         | context [2 ^ ?k] =>
             let v := eval vm_compute in (2 ^ k) in
             change (2 ^ k) with v in H
         end.

Lemma float_eq_finite (s : bool) (p M : positive) (e E : Z) :
  float_eq (S754_finite s p e) (S754_finite false M E) = true ->
  s = false
  /\ e + Z.log2 (Z.pos p) = E + Z.log2 (Z.pos M)
  /\ Z.pos p * 2 ^ (e - Z.min e E) = Z.pos M * 2 ^ (E - Z.min e E).
Proof.
  unfold float_eq. intros Heq. apply andb_prop in Heq as [Hs Hv].
  apply Z.eqb_eq in Hv. split; [destruct s; [discriminate|reflexivity]|].
  split; [|exact Hv].
  assert (Z.log2 (Z.pos p * 2 ^ (e - Z.min e E))
          = Z.log2 (Z.pos M * 2 ^ (E - Z.min e E))) as Hlog by (rewrite Hv; reflexivity).
  rewrite !Z.log2_mul_pow2 in Hlog by lia. lia.
Qed.

Lemma log2_bits (n k : Z) : 0 <= k -> 2 ^ k <= n < 2 ^ (k + 1) -> Z.log2 n = k.
Proof. intros Hk Hn. apply Z.log2_unique; [exact Hk|]. rewrite <- Z.add_1_r. exact Hn. Qed.

(** The [float32] patterns equal to 1234567.0: one. *)
Lemma float32_magic (x : Z) :
  0 <= x < 2 ^ 32 ->
  (float_eq (float_of_bits 23 8 x) (float_of_int 1234567) = true)
  <-> x = 1234613304.
Proof.
  intros Hx. split; [|intros ->; vm_compute; reflexivity].
  change (float_of_int 1234567) with (S754_finite false 5302424889720832 (-32)).
  unfold float_of_bits.
  change (2 ^ (23 + 8)) with 2147483648. change (2 ^ 23) with 8388608.
  change (2 ^ 8) with 256. change (2 ^ (8 - 1) - 1) with 127.
  change (2 ^ 32) with 4294967296 in Hx.
  set (e := (x / 8388608) mod 256). set (m := x mod 8388608).
  assert (0 <= e < 256) as He by (apply Z.mod_pos_bound; lia).
  assert (0 <= m < 8388608) as Hm by (apply Z.mod_pos_bound; lia).
  assert (x = (x / 8388608 / 256) * 2147483648 + e * 8388608 + m) as Hdecomp.
  { subst e m. pose proof (Z.div_mod x 8388608). pose proof (Z.div_mod (x / 8388608) 256). lia. }
  assert ((2147483648 <=? x) = false -> x / 8388608 / 256 = 0) as Hsign.
  { intros Hlt. apply Z.leb_gt in Hlt. rewrite Z.div_div by lia.
    apply Z.div_small. lia. }
  destruct (e =? 0) eqn:He0.
  { destruct m as [|p|p] eqn:Hp; try discriminate.
    intros Heq. apply float_eq_finite in Heq as (_ & Hlog & _).
    assert (Z.log2 (Z.pos p) < 23) by (apply Z.log2_lt_pow2; lia).
    change (Z.log2 (Z.pos 5302424889720832)) with 52 in Hlog. lia. }
  destruct (e =? 256 - 1) eqn:He1.
  { destruct (m =? 0); discriminate. }
  destruct (m + 8388608) as [|p|p] eqn:Hp; try discriminate.
  intros Heq. apply float_eq_finite in Heq as (Hs & Hlog & Hv).
  rewrite (log2_bits (Z.pos p) 23) in Hlog by (change (2 ^ 23) with 8388608; change (2 ^ (23 + 1)) with 16777216; lia).
  change (Z.log2 (Z.pos 5302424889720832)) with 52 in Hlog.
  assert (e = 147) as He147 by lia.
  rewrite He147 in Hv. eval_pow2 Hv.
  specialize (Hsign Hs). lia.
Qed.

(** The [float64] patterns equal to 123456789012345.0: one. *)
Lemma float64_magic (x : Z) :
  0 <= x < 2 ^ 64 ->
  (float_eq (float_of_bits 52 11 x) (float_of_int 123456789012345) = true)
  <-> x = 4817745636528479808.
Proof.
  intros Hx. split; [|intros ->; vm_compute; reflexivity].
  change (float_of_int 123456789012345) with (S754_finite false 7901234496790080 (-6)).
  unfold float_of_bits.
  change (2 ^ (52 + 11)) with 9223372036854775808. change (2 ^ 52) with 4503599627370496.
  change (2 ^ 11) with 2048. change (2 ^ (11 - 1) - 1) with 1023.
  change (2 ^ 64) with 18446744073709551616 in Hx.
  set (e := (x / 4503599627370496) mod 2048). set (m := x mod 4503599627370496).
  assert (0 <= e < 2048) as He by (apply Z.mod_pos_bound; lia).
  assert (0 <= m < 4503599627370496) as Hm by (apply Z.mod_pos_bound; lia).
  assert (x = (x / 4503599627370496 / 2048) * 9223372036854775808 + e * 4503599627370496 + m) as Hdecomp.
  { subst e m. pose proof (Z.div_mod x 4503599627370496).
    pose proof (Z.div_mod (x / 4503599627370496) 2048). lia. }
  assert ((9223372036854775808 <=? x) = false -> x / 4503599627370496 / 2048 = 0) as Hsign.
  { intros Hlt. apply Z.leb_gt in Hlt. rewrite Z.div_div by lia.
    apply Z.div_small. lia. }
  destruct (e =? 0) eqn:He0.
  { destruct m as [|p|p] eqn:Hp; try discriminate.
    intros Heq. apply float_eq_finite in Heq as (_ & Hlog & _).
    assert (Z.log2 (Z.pos p) < 52) by (apply Z.log2_lt_pow2; lia).
    change (Z.log2 (Z.pos 7901234496790080)) with 52 in Hlog. lia. }
  destruct (e =? 2048 - 1) eqn:He1.
  { destruct (m =? 0); discriminate. }
  destruct (m + 4503599627370496) as [|p|p] eqn:Hp; try discriminate.
  intros Heq. apply float_eq_finite in Heq as (Hs & Hlog & Hv).
  rewrite (log2_bits (Z.pos p) 52) in Hlog
    by (change (2 ^ 52) with 4503599627370496;
        change (2 ^ (52 + 1)) with 9007199254740992; lia).
  change (Z.log2 (Z.pos 7901234496790080)) with 52 in Hlog.
  assert (e = 1069) as He1069 by lia.
  rewrite He1069 in Hv. eval_pow2 Hv.
  specialize (Hsign Hs). lia.
Qed.

(** ** The size limits *)

Lemma max_intp_eq : max_intp = 9223372036854775807.
Proof. reflexivity. Qed.

Lemma max_bytes_eq : max_bytes = 9223372036854775774.
Proof. reflexivity. Qed.

(** A request of a length the reader accepts is served from the
    stream. *)
Lemma read_within (n : Z) (f : stream) :
  0 <= n <= max_bytes ->
  read n f = Ret (take (Z.to_nat n) f, drop (Z.to_nat n) f).
Proof.
  intros Hn. unfold read.
  rewrite (proj2 (Z.ltb_ge n (-1))), (proj2 (Z.ltb_ge max_bytes n)),
    (proj2 (Z.ltb_ge n 0)) by lia.
  reflexivity.
Qed.

Lemma product_units_pos (dims : list Z) : 1 <= product (map (Z.max 1) dims).
Proof.
  unfold product. induction dims as [|d dims IH]; cbn [map fold_right]; [lia|].
  assert (1 <= Z.max 1 d) as Hd by lia.
  generalize dependent (Z.max 1 d). intros. nia.
Qed.

Lemma product_units_ge (dims : list Z) (d : Z) :
  In d dims -> d <= product (map (Z.max 1) dims).
Proof.
  induction dims as [|a dims IH]; [contradiction|].
  pose proof (product_units_pos dims) as Hpos. revert Hpos IH.
  unfold product. cbn [map fold_right]. intros Hpos IH.
  assert (1 <= Z.max 1 a /\ a <= Z.max 1 a) as [Ha1 Ha2] by lia.
  generalize dependent (Z.max 1 a). intros m Hm1 Hm2.
  intros [-> | Hin]; [nia|]. specialize (IH Hin). nia.
Qed.

Lemma product_units (dims : list Z) :
  Forall (fun d => 0 <= d) dims ->
  product (filter (fun d => d <> 0) dims) = product (map (Z.max 1) dims).
Proof.
  unfold product. induction 1 as [|d dims Hd _ IH]; [reflexivity|].
  rewrite filter_cons. cbn [map fold_right]. rewrite <- IH.
  destruct (decide (d <> 0)) as [Hne | Heq].
  - cbn [fold_right]. f_equal. lia.
  - assert (d = 0) as -> by lia. change (Z.max 1 0) with 1. lia.
Qed.

(** A shape without negative dimension whose bytes are within the limit
    is one numpy builds, and its dimensions are within [intp]. *)
Lemma shape_ok_bytes (size : Z) (dims : list Z) :
  0 < size ->
  Forall (fun d => 0 <= d) dims ->
  array_bytes size dims <= max_intp ->
  shape_ok size dims = true.
Proof.
  intros Hsize Hpos Hbytes. unfold shape_ok, array_bytes in *.
  pose proof (product_units_pos dims) as Hunits.
  apply andb_true_intro. split.
  - apply forallb_forall. intros d Hin.
    pose proof (product_units_ge dims d Hin) as Hd.
    rewrite Forall_forall in Hpos.
    apply list_elem_of_In, Hpos in Hin.
    apply andb_true_intro. split; [apply Z.leb_le; lia | apply Z.leb_le; nia].
  - rewrite product_units by exact Hpos. apply Z.leb_le. exact Hbytes.
Qed.

Lemma is_intp_bytes (size : Z) (dims : list Z) :
  0 < size ->
  Forall (fun d => 0 <= d) dims ->
  array_bytes size dims <= max_intp ->
  forallb is_intp dims = true.
Proof.
  intros Hsize Hpos Hbytes. unfold array_bytes in Hbytes.
  pose proof (product_units_pos dims) as Hunits.
  apply forallb_forall. intros d Hin.
  pose proof (product_units_ge dims d Hin) as Hd.
  rewrite Forall_forall in Hpos. apply list_elem_of_In, Hpos in Hin.
  unfold is_intp. rewrite max_intp_eq in *.
  apply andb_true_intro. split; apply Z.leb_le; nia.
Qed.

(** The bytes of the geometry of a vector field and of a scalar field
    bound the bytes of their values. *)
Lemma array_bytes_vector (w nx ny nz : Z) :
  0 <= nx -> 0 <= ny -> 0 <= nz -> 0 < w ->
  array_bytes w [nz; ny; nx; 3]
  = w * (Z.max 1 nz * (Z.max 1 ny * (Z.max 1 nx * 3)))
  /\ nx * ny * nz * 3 * w <= array_bytes w [nz; ny; nx; 3]
  /\ array_bytes w [nx * ny * nz; 3] <= array_bytes w [nz; ny; nx; 3].
Proof.
  intros Hnx Hny Hnz Hw. unfold array_bytes.
  cbn [map product fold_right]. change (Z.max 1 3) with 3.
  assert (nx <= Z.max 1 nx /\ 1 <= Z.max 1 nx) as [Hx1 Hx2] by lia.
  assert (ny <= Z.max 1 ny /\ 1 <= Z.max 1 ny) as [Hy1 Hy2] by lia.
  assert (nz <= Z.max 1 nz /\ 1 <= Z.max 1 nz) as [Hz1 Hz2] by lia.
  assert (Z.max 1 (nx * ny * nz) <= Z.max 1 nz * (Z.max 1 ny * Z.max 1 nx))
    as Hcells.
  { generalize dependent (Z.max 1 nx). generalize dependent (Z.max 1 ny).
    generalize dependent (Z.max 1 nz). intros c Hc1 Hc2 b Hb1 Hb2 a Ha1 Ha2.
    assert (nx * ny <= a * b) by nia.
    assert (0 <= nx * ny) by nia.
    assert (nx * ny * nz <= a * b * c) by nia.
    assert (1 <= a * b) by nia. assert (1 <= a * b * c) by nia. lia. }
  split; [ring|].
  assert (nx * ny * nz <= Z.max 1 (nx * ny * nz)) by lia.
  split; nia.
Qed.

Lemma array_bytes_scalar (w nx ny nz : Z) :
  0 <= nx -> 0 <= ny -> 0 <= nz -> 0 < w ->
  nx * ny * nz * w <= array_bytes w [nz; ny; nx]
  /\ array_bytes w [nx * ny * nz; 1] <= array_bytes w [nz; ny; nx].
Proof.
  intros Hnx Hny Hnz Hw. unfold array_bytes.
  cbn [map product fold_right]. change (Z.max 1 1) with 1.
  assert (nx <= Z.max 1 nx /\ 1 <= Z.max 1 nx) as [Hx1 Hx2] by lia.
  assert (ny <= Z.max 1 ny /\ 1 <= Z.max 1 ny) as [Hy1 Hy2] by lia.
  assert (nz <= Z.max 1 nz /\ 1 <= Z.max 1 nz) as [Hz1 Hz2] by lia.
  assert (Z.max 1 (nx * ny * nz) <= Z.max 1 nz * (Z.max 1 ny * Z.max 1 nx))
    as Hcells.
  { generalize dependent (Z.max 1 nx). generalize dependent (Z.max 1 ny).
    generalize dependent (Z.max 1 nz). intros c Hc1 Hc2 b Hb1 Hb2 a Ha1 Ha2.
    assert (nx * ny <= a * b) by nia.
    assert (0 <= nx * ny) by nia.
    assert (nx * ny * nz <= a * b * c) by nia.
    assert (1 <= a * b) by nia. assert (1 <= a * b * c) by nia. lia. }
  assert (nx * ny * nz <= Z.max 1 (nx * ny * nz)) by lia.
  split; nia.
Qed.

(** ** The byte-order detector *)

Lemma byte_val_bound (b : byte) : 0 <= byte_val b < 256.
Proof. unfold byte_val. pose proof (Byte.to_N_bounded b). lia. Qed.

Lemma byte_val_inj (a b : byte) : byte_val a = byte_val b -> a = b.
Proof.
  unfold byte_val. intros Heq. apply N2Z.inj in Heq.
  pose proof (Byte.of_to_N a) as Ha. rewrite Heq, Byte.of_to_N in Ha.
  congruence.
Qed.

Lemma be_int_bound4 (b : bytes) : length b = 4%nat -> 0 <= be_int b < 2 ^ 32.
Proof.
  intros Hlen. destruct b as [|b0 [|b1 [|b2 [|b3 [|]]]]]; try discriminate.
  unfold be_int. cbn [fold_left]. change (2 ^ 32) with 4294967296.
  pose proof (byte_val_bound b0). pose proof (byte_val_bound b1).
  pose proof (byte_val_bound b2). pose proof (byte_val_bound b3). lia.
Qed.

Lemma be_int_bound8 (b : bytes) : length b = 8%nat -> 0 <= be_int b < 2 ^ 64.
Proof.
  intros Hlen.
  destruct b as [|b0 [|b1 [|b2 [|b3 [|b4 [|b5 [|b6 [|b7 [|]]]]]]]]]; try discriminate.
  unfold be_int. cbn [fold_left]. change (2 ^ 64) with 18446744073709551616.
  pose proof (byte_val_bound b0). pose proof (byte_val_bound b1).
  pose proof (byte_val_bound b2). pose proof (byte_val_bound b3).
  pose proof (byte_val_bound b4). pose proof (byte_val_bound b5).
  pose proof (byte_val_bound b6). pose proof (byte_val_bound b7). lia.
Qed.

Lemma be_int_mark4 (b : bytes) :
  length b = 4%nat -> be_int b = 1234613304 <-> b = mark4.
Proof.
  intros Hlen. split; [|intros ->; reflexivity].
  destruct b as [|b0 [|b1 [|b2 [|b3 [|]]]]]; try discriminate.
  unfold be_int. cbn [fold_left]. intros Hval.
  pose proof (byte_val_bound b0). pose proof (byte_val_bound b1).
  pose proof (byte_val_bound b2). pose proof (byte_val_bound b3).
  unfold mark4.
  f_equal; [|f_equal; [|f_equal; [|f_equal]]];
    apply byte_val_inj; vm_compute (byte_val _) at 2; lia.
Qed.

Lemma be_int_mark8 (b : bytes) :
  length b = 8%nat -> be_int b = 4817745636528479808 <-> b = mark8.
Proof.
  intros Hlen. split; [|intros ->; reflexivity].
  destruct b as [|b0 [|b1 [|b2 [|b3 [|b4 [|b5 [|b6 [|b7 [|]]]]]]]]]; try discriminate.
  unfold be_int. cbn [fold_left]. intros Hval.
  pose proof (byte_val_bound b0). pose proof (byte_val_bound b1).
  pose proof (byte_val_bound b2). pose proof (byte_val_bound b3).
  pose proof (byte_val_bound b4). pose proof (byte_val_bound b5).
  pose proof (byte_val_bound b6). pose proof (byte_val_bound b7).
  unfold mark8.
  f_equal; [|f_equal; [|f_equal; [|f_equal; [|f_equal; [|f_equal; [|f_equal; [|f_equal]]]]]]];
    apply byte_val_inj; vm_compute (byte_val _) at 2; lia.
Qed.

(** An interpretation reproduces the magic constant exactly when the
    bytes are the control mark in that order. *)
Lemma interpretation_magic (big : bool) (w : Z) (buffer : bytes) :
  w = 4 \/ w = 8 ->
  Z.of_nat (length buffer) = w ->
  float_eq (interpretation big w buffer) (magic w) = true
  <-> buffer = if big then mark w else rev (mark w).
Proof.
  intros Hw Hlen.
  assert (forall b : bytes, rev b = mark w <-> b = rev (mark w)) as Hrev.
  { intros b. split; intros Hb; [rewrite <- Hb, rev_involutive | rewrite Hb, rev_involutive]; reflexivity. }
  assert (length (rev buffer) = length buffer) as Hlenr by apply length_rev.
  unfold interpretation, magic, mark, le_int.
  destruct Hw as [-> | ->]; change (4 =? 4) with true; change (8 =? 4) with false;
    cbv iota; unfold mark in Hrev; cbn [Z.eqb Pos.eqb] in Hrev.
  - destruct big.
    + rewrite float32_magic by (apply be_int_bound4; lia). apply be_int_mark4. lia.
    + rewrite float32_magic by (apply be_int_bound4; lia).
      rewrite be_int_mark4 by lia. apply Hrev.
  - destruct big.
    + rewrite float64_magic by (apply be_int_bound8; lia). apply be_int_mark8. lia.
    + rewrite float64_magic by (apply be_int_bound8; lia).
      rewrite be_int_mark8 by lia. apply Hrev.
Qed.

Lemma struct_unpack_interpretation (big : bool) (w : Z) (buffer : bytes) :
  w = 4 \/ w = 8 ->
  Z.of_nat (length buffer) = w ->
  struct_unpack (order_name big w) buffer = Ret (interpretation big w buffer).
Proof.
  intros [-> | ->] Hlen; destruct big; unfold struct_unpack, order_name;
    cbn [Z.eqb Pos.eqb format_of or_raise obind fmt_size];
    rewrite Hlen; reflexivity.
Qed.

(** What [_endianness] computes on [w] available bytes, [w] being 4 or
    8. *)
Lemma endianness_eq (w : Z) (f : stream) :
  w = 4 \/ w = 8 ->
  w <= Z.of_nat (length f) ->
  _endianness w f =
    let buffer := take (Z.to_nat w) f in
    if float_eq (interpretation true w buffer) (magic w)
    then Ret (order_name true w, drop (Z.to_nat w) f)
    else if float_eq (interpretation false w buffer) (magic w)
    then Ret (order_name false w, drop (Z.to_nat w) f)
    else Raise TypeError.
Proof.
  intros Hw Hlen. cbv zeta.
  assert (Z.of_nat (length (take (Z.to_nat w) f)) = w) as Hbuf
    by (rewrite length_take; lia).
  pose proof (struct_unpack_interpretation true w _ Hw Hbuf) as Hbe.
  pose proof (struct_unpack_interpretation false w _ Hw Hbuf) as Hle.
  unfold _endianness, io_bind, f_read, lift.
  rewrite read_within by (rewrite max_bytes_eq; lia). cbv beta iota.
  assert (dict_get big_endian w = Ret (order_name true w)
          /\ dict_get little_endian w = Ret (order_name false w)
          /\ dict_get value w = Ret (magic w)) as (-> & -> & ->)
    by (destruct Hw as [-> | ->]; repeat split; reflexivity).
  cbn [obind]. rewrite Hbe. cbn [obind].
  destruct (float_eq (interpretation true w _) (magic w)); [reflexivity|].
  rewrite Hle. cbn [obind].
  destruct (float_eq (interpretation false w _) (magic w)); reflexivity.
Qed.

(** C7. For a width [w] of 4 or 8 and a stream holding at least [w]
    bytes, the detector consumes exactly the first [w] bytes; it answers
    the big-endian format when these bytes, read most significant byte
    first as a float ([w = 4]) or a double ([w = 8]), equal the magic
    constant, and otherwise the little-endian format when the reverse
    reading equals it; the readings are compared bit for bit: each equals
    the constant exactly when the bytes are the control mark in that
    order; whatever the detector returns is the format whose reading
    matched. *)
Theorem endianness_detects_byte_order (w : Z) (f : stream) :
  w = 4 \/ w = 8 ->
  w <= Z.of_nat (length f) ->
  let buffer := take (Z.to_nat w) f in
  let rest := drop (Z.to_nat w) f in
  let big := float_eq (interpretation true w buffer) (magic w) in
  let little := float_eq (interpretation false w buffer) (magic w) in
  value !! w = Some (magic w)
  /\ struct_unpack (order_name true w) buffer
     = Ret (interpretation true w buffer)
  /\ struct_unpack (order_name false w) buffer
     = Ret (interpretation false w buffer)
  /\ (big = true -> _endianness w f = Ret (order_name true w, rest))
  /\ (big = false -> little = true ->
      _endianness w f = Ret (order_name false w, rest))
  /\ (big = true <-> buffer = mark w)
  /\ (little = true <-> buffer = rev (mark w))
  /\ (forall fmt rest',
        _endianness w f = Ret (fmt, rest') ->
        rest' = rest
        /\ (fmt = order_name true w /\ big = true
            \/ fmt = order_name false w /\ big = false /\ little = true)).
Proof.
  intros Hw Hlen buffer rest big little.
  assert (Z.of_nat (length buffer) = w) as Hbuf
    by (subst buffer; rewrite length_take; lia).
  pose proof (endianness_eq w f Hw Hlen) as Heq. cbv zeta in Heq.
  fold buffer rest in Heq. fold big little in Heq.
  split; [destruct Hw as [-> | ->]; reflexivity|].
  split; [apply struct_unpack_interpretation; assumption|].
  split; [apply struct_unpack_interpretation; assumption|].
  split; [intros Hb; rewrite Heq, Hb; reflexivity|].
  split; [intros Hb Hl; rewrite Heq, Hb, Hl; reflexivity|].
  split; [apply (interpretation_magic true w buffer Hw Hbuf)|].
  split; [apply (interpretation_magic false w buffer Hw Hbuf)|].
  intros fmt rest' Hret. rewrite Heq in Hret.
  destruct big; [injection Hret as <- <-; auto|].
  destruct little; [injection Hret as <- <-; auto|discriminate].
Qed.

Lemma endianness_detects_witness :
  _endianness 4 (rev mark4 ++ f32le_1_to_6) = Ret ("<f"%string, f32le_1_to_6).
Proof.
  pose proof (endianness_detects_byte_order 4 (rev mark4 ++ f32le_1_to_6)
                (or_introl eq_refl)) as Hthm.
  cbv zeta in Hthm.
  refine (proj1 (proj2 (proj2 (proj2 (proj2 (Hthm _))))) _ _);
    vm_compute; solve [reflexivity | discriminate].
Defined.

(** C8, as the code has it. When neither reading of the [w] bytes equals
    the magic constant, building the message of the [IOError] applies
    [hex] to the bytes, which raises [TypeError]: the error that leaves
    the detector carries neither the bytes nor the width. *)
Theorem endianness_no_match_raises_type_error (w : Z) (f : stream) :
  w = 4 \/ w = 8 ->
  w <= Z.of_nat (length f) ->
  float_eq (interpretation true w (take (Z.to_nat w) f)) (magic w) = false ->
  float_eq (interpretation false w (take (Z.to_nat w) f)) (magic w) = false ->
  hex (ArgBytes (take (Z.to_nat w) f)) = Raise TypeError
  /\ _endianness w f = Raise TypeError.
Proof.
  intros Hw Hlen Hbig Hlittle. split; [reflexivity|].
  rewrite endianness_eq by assumption. cbv zeta. rewrite Hbig, Hlittle.
  reflexivity.
Qed.

Lemma endianness_no_match_witness :
  hex (ArgBytes [x00; x00; x00; x00]) = Raise TypeError
  /\ _endianness 4 [x00; x00; x00; x00] = Raise TypeError.
Proof.
  apply (endianness_no_match_raises_type_error 4 [x00; x00; x00; x00]);
    vm_compute; solve [auto | discriminate].
Defined.

(** ** The binary decoder: shape and element order *)

Lemma offsets_row (w base : Z) :
  offsets [3] [w] base = [base; base + w; base + 2 * w].
Proof.
  cbn [offsets]. change (seqZ 0 3) with [0; 1; 2].
  cbn [flat_map app]. repeat f_equal; lia.
Qed.

Lemma offsets_rows (n : nat) (w base m : Z) :
  flat_map (fun i => offsets [3] [w] (base + i * (3 * w))) (seqZ m (Z.of_nat n))
  = map (fun t => base + t * w) (seqZ (3 * m) (3 * Z.of_nat n)).
Proof.
  revert m. induction n as [|n IH]; intros m.
  - reflexivity.
  - rewrite (seqZ_cons m) by lia. cbn [flat_map].
    replace (Z.pred (Z.of_nat (S n))) with (Z.of_nat n) by lia.
    rewrite IH, offsets_row.
    rewrite (seqZ_cons (3 * m)) by lia.
    rewrite (seqZ_cons (Z.succ (3 * m))) by lia.
    rewrite (seqZ_cons (Z.succ (Z.succ (3 * m)))) by lia.
    cbn [map app].
    replace (Z.pred (Z.pred (Z.pred (3 * Z.of_nat (S n))))) with (3 * Z.of_nat n) by lia.
    replace (Z.succ (Z.succ (Z.succ (3 * m)))) with (3 * Z.succ m) by lia.
    f_equal; [|f_equal; [|f_equal]]; unfold Z.succ; ring.
Qed.

(** The offsets of the view of [_fast_binary_decode]: value [t] starts
    at byte [t * w]. *)
Lemma offsets_vector (n w : Z) :
  0 <= n ->
  offsets [n; 3] [3 * w; w] 0 = map (fun t => t * w) (seqZ 0 (n * 3)).
Proof.
  intros Hn. cbn [offsets].
  change (fun i => flat_map (fun i0 => [0 + i * (3 * w) + i0 * w]) (seqZ 0 3))
    with (fun i => offsets [3] [w] (0 + i * (3 * w))).
  rewrite <- (Z2Nat.id n) by exact Hn.
  rewrite offsets_rows. replace (3 * 0) with 0 by lia.
  replace (Z.of_nat (Z.to_nat n) * 3) with (3 * Z.of_nat (Z.to_nat n)) by lia.
  apply map_ext. intros t. apply Z.add_0_l.
Qed.

Lemma offsets_cols (n : nat) (w base m : Z) :
  flat_map (fun i => offsets [1] [w] (base + i * w)) (seqZ m (Z.of_nat n))
  = map (fun t => base + t * w) (seqZ m (Z.of_nat n)).
Proof.
  revert m. induction n as [|n IH]; intros m; [reflexivity|].
  rewrite (seqZ_cons m) by lia.
  replace (Z.pred (Z.of_nat (S n))) with (Z.of_nat n) by lia.
  cbn [flat_map map]. rewrite IH. cbn [offsets].
  change (seqZ 0 1) with [0]. cbn [flat_map app]. f_equal. ring.
Qed.

(** The offsets of the view of [_fast_binary_decode_scalars]. *)
Lemma offsets_scalar (n w : Z) :
  0 <= n ->
  offsets [n; 1] [w; w] 0 = map (fun t => t * w) (seqZ 0 n).
Proof.
  intros Hn. cbn [offsets].
  change (fun i => flat_map (fun i0 => [0 + i * w + i0 * w]) (seqZ 0 1))
    with (fun i => offsets [1] [w] (0 + i * w)).
  rewrite <- (Z2Nat.id n) by exact Hn.
  rewrite offsets_cols. apply map_ext. intros t. apply Z.add_0_l.
Qed.

Lemma slice_take (f : bytes) (total start len : Z) :
  0 <= start -> 0 <= len -> start + len <= total ->
  slice (take (Z.to_nat total) f) start len = slice f start len.
Proof.
  intros Hs Hl Ht. unfold slice. rewrite !take_drop_commute, take_take.
  do 2 f_equal. lia.
Qed.

Lemma check_strides_vector (n w len : Z) :
  0 <= n -> 0 < w -> n * 3 * w <= len ->
  check_strides w [n; 3] [3 * w; w] len 0 = true.
Proof.
  intros Hn Hw Hlen. unfold check_strides. cbn [existsb].
  destruct (0 =? n) eqn:Hn0; [reflexivity|]. apply Z.eqb_neq in Hn0.
  cbn [Z.eqb orb zip zip_with map].
  rewrite !filter_cons, !filter_nil.
  repeat case_decide; cbn [fold_right]; apply andb_true_intro;
    split; (apply Z.leb_le; nia).
Qed.

Lemma check_strides_scalar (n w len : Z) :
  0 <= n -> 0 < w -> n * w <= len ->
  check_strides w [n; 1] [w; w] len 0 = true.
Proof.
  intros Hn Hw Hlen. unfold check_strides. cbn [existsb].
  destruct (0 =? n) eqn:Hn0; [reflexivity|]. apply Z.eqb_neq in Hn0.
  cbn [Z.eqb orb zip zip_with map].
  rewrite !filter_cons, !filter_nil.
  repeat case_decide; cbn [fold_right]; apply andb_true_intro;
    split; (apply Z.leb_le; nia).
Qed.

Lemma np_reshape_ok (size : Z) (a : ndarray) (newshape : list Z) :
  0 < size ->
  Forall (fun d => 0 <= d) newshape ->
  product newshape = Z.of_nat (length (data a)) ->
  array_bytes size newshape <= max_intp ->
  np_reshape size a newshape = Ret {| shape := newshape; data := data a |}.
Proof.
  intros Hitem Hpos Hsize Hbytes. unfold np_reshape.
  rewrite (is_intp_bytes size) by assumption. cbn [negb].
  assert (filter (fun d => d < 0) newshape = []) as ->.
  { clear Hsize Hbytes. induction Hpos as [|d l Hd _ IH]; [reflexivity|].
    rewrite filter_cons, decide_False by lia. exact IH. }
  rewrite Hsize, Z.eqb_refl. cbn [obind shape].
  rewrite shape_ok_bytes by assumption. reflexivity.
Qed.

(** The view of a fast decoder on [n] cells of [c] values of [w]
    bytes. *)
Lemma np_ndarray_ok (n c w s : Z) (dtype : string) (fm : format)
    (buffer : bytes) :
  format_of dtype = Some fm ->
  fmt_size fm = w ->
  s = c * w ->
  0 <= n -> 0 < c -> 0 < w ->
  array_bytes w [n; c] <= max_intp ->
  check_strides w [n; c] [s; w] (Z.of_nat (length buffer)) 0 = true ->
  np_ndarray [n; c] dtype buffer 0 [s; w]
  = Ret {| shape := [n; c];
           data := map (fun o => item fm (slice buffer o w))
                       (offsets [n; c] [s; w] 0) |}.
Proof.
  intros Hfm Hsize -> Hn Hc Hw Hbytes Hstrides. unfold np_ndarray.
  assert (Forall (fun d => 0 <= d) [n; c]) as Hpos
    by (repeat constructor; lia).
  rewrite (is_intp_bytes w) by assumption. cbn [negb].
  rewrite Hfm. cbn [or_raise obind]. rewrite Hsize.
  assert (forallb is_intp [c * w; w] = true) as ->.
  { unfold array_bytes in Hbytes. cbn [map product fold_right] in Hbytes.
    unfold is_intp. cbn [forallb]. rewrite max_intp_eq in *.
    assert (1 <= Z.max 1 n /\ c <= Z.max 1 c) as [Hn1 Hc1] by lia.
    generalize dependent (Z.max 1 n). generalize dependent (Z.max 1 c).
    intros c' Hc' n' Hbytes Hn'.
    assert (c * w <= c' * w) as Hcw by nia.
    assert (0 <= c' * w) as Hcw' by nia.
    assert (c' * w <= n' * (c' * w)) as Hncw by nia.
    assert (w <= c * w) as Hw' by nia.
    replace (w * (n' * (c' * 1))) with (n' * (c' * w)) in Hbytes by ring.
    repeat (apply andb_true_intro; split);
      first [reflexivity | apply Z.leb_le; lia]. }
  cbn [negb length Nat.eqb]. rewrite Hstrides. cbn [negb].
  rewrite shape_ok_bytes by assumption. reflexivity.
Qed.

Section DecoderFacts.
Context `{Builtins}.

(** The fast binary decoder on a complete payload: the shape is
    (nz, ny, nx, 3) and the elements are the payload values in file
    order; [valuemultiplier] plays no part. *)
Lemma fast_binary_decode_eq (w nx ny nz : Z) (headers : gmap string hval)
    (dtype : string) (fm : format) (f : stream) :
  nodes headers "xnodes" = Ret nx ->
  nodes headers "ynodes" = Ret ny ->
  nodes headers "znodes" = Ret nz ->
  0 <= nx -> 0 <= ny -> 0 <= nz ->
  format_of dtype = Some fm ->
  fmt_size fm = w ->
  0 < w ->
  nx * ny * nz * 3 * w <= Z.of_nat (length f) ->
  array_bytes w [nz; ny; nx; 3] <= max_bytes ->
  _fast_binary_decode w headers dtype f
  = Ret ({| shape := [nz; ny; nx; 3];
            data := map (payload_value fm f) (seqZ 0 (nx * ny * nz * 3)) |},
         drop (Z.to_nat (nx * ny * nz * 3 * w)) f).
Proof.
  intros Hx Hy Hz Hnx Hny Hnz Hfm Hsize Hw Hlen Hbytes.
  assert (0 <= nx * ny * nz) as Hn by nia.
  destruct (array_bytes_vector w nx ny nz Hnx Hny Hnz Hw)
    as (_ & Hread & Hview).
  assert (max_bytes <= max_intp) as Hmax by (rewrite max_bytes_eq, max_intp_eq; lia).
  unfold _fast_binary_decode, io_bind, lift, f_read.
  rewrite Hx, Hy, Hz. cbn [obind].
  rewrite read_within by (split; [nia | lia]). cbv beta iota.
  rewrite (np_ndarray_ok (nx * ny * nz) 3 w (3 * w) dtype fm);
    try assumption; try lia.
  2: { apply check_strides_vector; [exact Hn | exact Hw |].
       rewrite length_take. nia. }
  rewrite offsets_vector by exact Hn.
  rewrite map_map. cbn [obind].
  unfold itemsize. rewrite Hfm. cbn [from_option]. rewrite Hsize.
  rewrite np_reshape_ok.
  - cbn [data obind]. do 3 f_equal. apply map_ext_in. intros t Ht.
    apply list_elem_of_In, elem_of_seqZ in Ht. unfold payload_value.
    rewrite Hsize. f_equal. apply slice_take; nia.
  - exact Hw.
  - repeat constructor; lia.
  - cbn [data product fold_right]. rewrite length_map, length_seqZ. nia.
  - lia.
Qed.

(** The same for the scalar decoder: shape (nz, ny, nx), one value per
    cell. *)
Lemma fast_binary_decode_scalars_eq (w nx ny nz : Z)
    (headers : gmap string hval) (dtype : string) (fm : format) (f : stream) :
  nodes headers "xnodes" = Ret nx ->
  nodes headers "ynodes" = Ret ny ->
  nodes headers "znodes" = Ret nz ->
  0 <= nx -> 0 <= ny -> 0 <= nz ->
  format_of dtype = Some fm ->
  fmt_size fm = w ->
  0 < w ->
  nx * ny * nz * w <= Z.of_nat (length f) ->
  array_bytes w [nz; ny; nx] <= max_bytes ->
  _fast_binary_decode_scalars w headers dtype f
  = Ret ({| shape := [nz; ny; nx];
            data := map (payload_value fm f) (seqZ 0 (nx * ny * nz)) |},
         drop (Z.to_nat (nx * ny * nz * w)) f).
Proof.
  intros Hx Hy Hz Hnx Hny Hnz Hfm Hsize Hw Hlen Hbytes.
  assert (0 <= nx * ny * nz) as Hn by nia.
  destruct (array_bytes_scalar w nx ny nz Hnx Hny Hnz Hw) as (Hread & Hview).
  assert (max_bytes <= max_intp) as Hmax by (rewrite max_bytes_eq, max_intp_eq; lia).
  unfold _fast_binary_decode_scalars, io_bind, lift, f_read.
  rewrite Hx, Hy, Hz. cbn [obind].
  rewrite read_within by (split; [nia | lia]). cbv beta iota.
  rewrite (np_ndarray_ok (nx * ny * nz) 1 w w dtype fm);
    try assumption; try lia.
  2: { apply check_strides_scalar; [exact Hn | exact Hw |].
       rewrite length_take. nia. }
  rewrite offsets_scalar by exact Hn.
  rewrite map_map. cbn [obind].
  unfold itemsize. rewrite Hfm. cbn [from_option]. rewrite Hsize.
  rewrite np_reshape_ok.
  - cbn [data obind]. do 3 f_equal. apply map_ext_in. intros t Ht.
    apply list_elem_of_In, elem_of_seqZ in Ht. unfold payload_value.
    rewrite Hsize. f_equal. apply slice_take; nia.
  - exact Hw.
  - repeat constructor; lia.
  - cbn [data product fold_right]. rewrite length_map, length_seqZ. nia.
  - lia.
Qed.
End DecoderFacts.

(** Element [k][j][i][c] of an array of shape (nz, ny, nx, 3) is element
    number ((k*ny + j)*nx + i)*3 + c of its data. *)
Lemma np_getitem_vector (nx ny nz k j i c : Z) (values : list float) :
  0 <= k < nz -> 0 <= j < ny -> 0 <= i < nx -> 0 <= c < 3 ->
  np_getitem {| shape := [nz; ny; nx; 3]; data := values |} [k; j; i; c]
  = values !! Z.to_nat (((k * ny + j) * nx + i) * 3 + c).
Proof.
  intros Hk Hj Hi Hc. unfold np_getitem. cbn [shape data flat_index].
  repeat match goal with
         | |- context [(0 <=? ?x) && (?x <? ?d)] =>
             replace ((0 <=? x) && (x <? d)) with true
               by (symmetry; apply andb_true_intro; split;
                   [apply Z.leb_le | apply Z.ltb_lt]; lia)
         end.
  reflexivity.
Qed.

Lemma format_of_order_name (big : bool) (w : Z) :
  w = 4 \/ w = 8 ->
  exists fm,
    format_of (order_name big w) = Some fm
    /\ fmt_size fm = w
    /\ forall b, item fm b = interpretation big w b.
Proof.
  intros [-> | ->]; destruct big; eexists; repeat split.
Qed.

Lemma vector_index_bound (nx ny nz k j i c : Z) :
  0 <= k < nz -> 0 <= j < ny -> 0 <= i < nx -> 0 <= c < 3 ->
  0 <= ((k * ny + j) * nx + i) * 3 + c < nx * ny * nz * 3.
Proof.
  intros Hk Hj Hi Hc.
  assert (0 <= k * ny + j < nz * ny) as Hkj by nia.
  assert (0 <= (k * ny + j) * nx + i < nz * ny * nx) as Hkji by nia.
  nia.
Qed.

Section UnpackFacts.
Context `{Builtins}.

(** X7. [unpack] on a binary file: with the header read, a width [w] of
    4 or 8, the control mark of one of the two byte orders, a complete
    payload and a geometry whose array, an axis of 0 counted as 1, takes
    no more than [max_bytes] bytes, the result has shape (nz, ny, nx, 3)
    and its element [k][j][i][c] is payload value number
    ((k*ny + j)*nx + i)*3 + c read in the detected order, as it stands:
    the header's [valuemultiplier] is not applied. *)
Lemma unpack_binary_layout (fuel : nat) (fs : gmap path node) (p : path)
    (content rest : stream) (headers : gmap string hval) (width : str)
    (w nx ny nz : Z) (big : bool) :
  open fs p = Ret content ->
  _read_header fuel content = Ret (headers, rest) ->
  data_type headers 3 = Ret (lit "Binary") ->
  data_type headers 4 = Ret width ->
  py_int width = Some w ->
  w = 4 \/ w = 8 ->
  nodes headers "xnodes" = Ret nx ->
  nodes headers "ynodes" = Ret ny ->
  nodes headers "znodes" = Ret nz ->
  0 <= nx -> 0 <= ny -> 0 <= nz ->
  take (Z.to_nat w) rest = (if big then mark w else rev (mark w)) ->
  w + nx * ny * nz * 3 * w <= Z.of_nat (length rest) ->
  array_bytes w [nz; ny; nx; 3] <= max_bytes ->
  exists a,
    unpack fuel fs p = Ret (Some a)
    /\ shape a = [nz; ny; nx; 3]
    /\ forall k j i c,
         0 <= k < nz -> 0 <= j < ny -> 0 <= i < nx -> 0 <= c < 3 ->
         np_getitem a [k; j; i; c]
         = Some (interpretation big w
                   (slice (drop (Z.to_nat w) rest)
                      ((((k * ny + j) * nx + i) * 3 + c) * w) w)).
Proof.
  intros Hopen Hhead Hkind Hwidth Hint Hw Hx Hy Hz Hnx Hny Hnz Hmark Hlen
    Hbytes.
  assert (0 <= nx * ny * nz) as Hn by nia.
  assert (0 < w) as Hwpos by (destruct Hw; lia).
  destruct (format_of_order_name big w Hw) as (fm & Hfm & Hsize & Hitem).
  assert (_endianness w rest = Ret (order_name big w, drop (Z.to_nat w) rest))
    as Hend.
  { assert (Z.of_nat (length (take (Z.to_nat w) rest)) = w) as Hbuf
      by (rewrite length_take; nia).
    rewrite endianness_eq by (assumption || nia). cbv zeta.
    destruct big.
    - rewrite (proj2 (interpretation_magic true w _ Hw Hbuf) Hmark). reflexivity.
    - rewrite (proj2 (interpretation_magic false w _ Hw Hbuf) Hmark).
      destruct (float_eq (interpretation true w _) (magic w)) eqn:Hbe; [|reflexivity].
      apply (interpretation_magic true w _ Hw Hbuf) in Hbe.
      rewrite Hbe in Hmark. exfalso. clear -Hw Hmark.
      destruct Hw as [-> | ->]; discriminate. }
  eexists. split; [|split].
  - unfold unpack, pathize. rewrite Hopen. cbn [obind].
    unfold unpack_file, io_bind at 1. rewrite Hhead.
    unfold io_bind at 1, lift at 1. rewrite Hkind. cbn [obind].
    rewrite decide_False by discriminate.
    rewrite decide_True by reflexivity.
    unfold io_bind at 1, lift at 1. rewrite Hwidth. cbn [obind].
    unfold io_bind at 1, lift at 1. rewrite Hint. cbn [or_raise obind].
    unfold io_bind at 1. rewrite Hend.
    unfold io_bind.
    rewrite (fast_binary_decode_eq w nx ny nz headers _ fm); try assumption.
    + cbn [io_ret fst obind]. reflexivity.
    + rewrite length_drop. nia.
  - reflexivity.
  - intros k j i c Hk Hj Hi Hc.
    pose proof (vector_index_bound nx ny nz k j i c Hk Hj Hi Hc) as Hidx.
    rewrite np_getitem_vector by assumption.
    rewrite list_lookup_fmap.
    rewrite lookup_seqZ_lt by (rewrite Z2Nat.id; lia).
    cbn [fmap option_fmap option_map]. unfold payload_value.
    rewrite Hitem, Hsize, Z2Nat.id by lia. reflexivity.
Qed.
End UnpackFacts.

(** ** The payload decoders and [valuemultiplier] *)

(** The example of the specification, without [valuemultiplier]. *)
Example unpack_spec_example :
  unpack 10 fs_files ["example.ovf"%string]
  = Ret (Some {| shape := [1; 1; 2; 3];
                 data := map f32 [1; 2; 3; 4; 5; 6] |}).
Proof. vm_compute. reflexivity. Qed.

(** C1, on a file with [valuemultiplier: 2]. The header is read with the
    factor 2.0, and [unpack] returns the array of shape (1,1,2,3) with
    the payload values 1 ... 6 themselves: none of its elements is the
    payload value times 2. *)
Theorem unpack_binary_ignores_valuemultiplier :
  (r <- _read_header 10 file_vector_x2 ;; multiplier r.1) = Ret (f64 2)
  /\ unpack 10 fs_files ["vector.ovf"%string]
     = Ret (Some {| shape := [1; 1; 2; 3];
                    data := map f32 [1; 2; 3; 4; 5; 6] |})
  /\ Forall2 (fun x z => float_eq x (f64 z) = true
                         /\ float_eq x (float_mul (f64 z) (f64 2)) = false)
       (map f32 [1; 2; 3; 4; 5; 6]) [1; 2; 3; 4; 5; 6].
Proof.
  split; [|split].
  - vm_compute. reflexivity.
  - vm_compute. reflexivity.
  - repeat constructor.
Qed.

(** C2, on a scalar file with [valuemultiplier: 2]. [unpack_scalars]
    returns the raw values 1 and 2, not 2 and 4; the text decoder, on
    the text file with the same factor, returns the values times 2. *)
Theorem unpack_scalars_ignores_valuemultiplier :
  (r <- _read_header 10 file_scalar_x2 ;; multiplier r.1) = Ret (f64 2)
  /\ unpack_scalars 10 fs_files ["scalar.ovf"%string]
     = Ret {| shape := [1; 1; 2]; data := map f32 [1; 2] |}
  /\ Forall2 (fun x z => float_eq x (f64 z) = true
                         /\ float_eq x (float_mul (f64 z) (f64 2)) = false)
       (map f32 [1; 2]) [1; 2]
  /\ unpack 10 fs_files ["text.ovf"%string]
     = Ret (Some {| shape := [1; 1; 1; 3];
                    data := map (fun z => float_mul (f64 z) (f64 2)) [1; 2; 3] |}).
Proof.
  split; [|split; [|split]].
  - vm_compute. reflexivity.
  - vm_compute. reflexivity.
  - repeat constructor.
  - vm_compute. reflexivity.
Qed.

(** C3, on one cell (1, 2, 3) under [valuemultiplier: 2], written as
    text and as 8-byte binary: the text file decodes to (2, 4, 6), the
    binary file to (1, 2, 3). *)
Theorem unpack_text_binary_differ :
  unpack 10 fs_files ["text.ovf"%string]
  = Ret (Some {| shape := [1; 1; 1; 3]; data := map f64 [2; 4; 6] |})
  /\ unpack 10 fs_files ["binary.ovf"%string]
     = Ret (Some {| shape := [1; 1; 1; 3]; data := map f64 [1; 2; 3] |})
  /\ Forall2 (fun x y => float_eq x y = false)
       (map f64 [2; 4; 6]) (map f64 [1; 2; 3])
  /\ unpack 10 fs_files ["text.ovf"%string]
     <> unpack 10 fs_files ["binary.ovf"%string].
Proof.
  split; [|split; [|split]].
  - vm_compute. reflexivity.
  - vm_compute. reflexivity.
  - repeat constructor.
  - vm_compute. discriminate.
Qed.

(** ** Decoded arrays are well formed *)

Lemma obind_ret {A B} (c : outcome A) (k : A -> outcome B) (b : B) :
  obind c k = Ret b -> exists a, c = Ret a /\ k a = Ret b.
Proof. destruct c as [a| |]; cbn; try discriminate. eauto. Qed.

Lemma io_bind_ret {A B} (c : io A) (k : A -> io B) (f : stream)
    (r : B * stream) :
  io_bind c k f = Ret r -> exists a f', c f = Ret (a, f') /\ k a f' = Ret r.
Proof.
  unfold io_bind. destruct (c f) as [[a f']| |]; try discriminate. eauto.
Qed.

Lemma lift_ret {A} (c : outcome A) (f f' : stream) (a : A) :
  lift c f = Ret (a, f') -> c = Ret a /\ f' = f.
Proof.
  unfold lift. destruct c as [a'| |]; cbn; try discriminate.
  intros [= -> ->]. auto.
Qed.

Lemma product_nonneg_filter (l : list Z) :
  filter (fun d => d < 0) l = [] -> filter (fun d => 0 <= d) l = l.
Proof.
  induction l as [|a l IH]; [reflexivity|].
  rewrite !filter_cons. repeat case_decide; try lia; try discriminate.
  intros Hl. rewrite IH by exact Hl. reflexivity.
Qed.

Lemma map_infer_nonneg (l : list Z) (q : Z) :
  filter (fun d => d < 0) l = [] ->
  map (fun d => if d <? 0 then q else d) l = l.
Proof.
  induction l as [|a l IH]; [reflexivity|].
  rewrite filter_cons. case_decide; try discriminate.
  intros Hl. cbn [map]. rewrite IH by exact Hl.
  replace (a <? 0) with false by (symmetry; apply Z.ltb_ge; lia). reflexivity.
Qed.

Lemma product_infer (l : list Z) (q d : Z) :
  filter (fun d => d < 0) l = [d] ->
  product (map (fun d => if d <? 0 then q else d) l)
  = q * product (filter (fun d => 0 <= d) l).
Proof.
  induction l as [|a l IH]; [discriminate|].
  rewrite !filter_cons. cbn [map]. repeat case_decide; try lia.
  - intros [= _ Hl]. rewrite map_infer_nonneg, product_nonneg_filter by exact Hl.
    replace (a <? 0) with true by (symmetry; apply Z.ltb_lt; lia). reflexivity.
  - intros Hl. replace (a <? 0) with false by (symmetry; apply Z.ltb_ge; lia).
    unfold product in *. cbn [fold_right]. rewrite IH by exact Hl. ring.
Qed.

Lemma np_reshape_well_formed (size : Z) (a a' : ndarray)
    (newshape : list Z) :
  np_reshape size a newshape = Ret a' -> well_formed a'.
Proof.
  unfold np_reshape, well_formed.
  destruct (forallb is_intp newshape); cbn [negb]; try discriminate.
  intros Hrun. apply obind_ret in Hrun as (r & Hr & Hrun).
  destruct (shape_ok size (shape r)); try discriminate.
  injection Hrun as <-. revert Hr.
  destruct (filter (fun d => d < 0) newshape) as [|d [|]] eqn:Hneg;
    try discriminate.
  - destruct (product newshape =? _) eqn:Hsize; try discriminate.
    intros [= <-]. cbn [shape data]. apply Z.eqb_eq. exact Hsize.
  - destruct ((_ =? 0) || _) eqn:Hknown; try discriminate.
    apply orb_false_elim in Hknown as [Hzero Hmod].
    apply Z.eqb_neq in Hzero. apply negb_false_iff, Z.eqb_eq in Hmod.
    intros [= <-]. cbn [shape data].
    rewrite (product_infer _ _ d Hneg).
    apply Z.div_exact in Hmod; [|exact Hzero]. lia.
Qed.

Section WellFormed.
Context `{Builtins}.

Lemma repeat_io_length (n k : nat) (body : io (list float)) :
  (forall f l f', body f = Ret (l, f') -> length l = k) ->
  forall f l f', repeat_io n body f = Ret (l, f') -> length l = (n * k)%nat.
Proof.
  intros Hbody. induction n as [|n IH]; intros f l f' Hrun.
  - cbn in Hrun. injection Hrun as <- _. reflexivity.
  - cbn [repeat_io] in Hrun.
    apply io_bind_ret in Hrun as (xs & f1 & Hxs & Hrun).
    apply io_bind_ret in Hrun as (rest & f2 & Hrest & Hrun).
    injection Hrun as <- _. rewrite length_app.
    rewrite (Hbody _ _ _ Hxs), (IH _ _ _ Hrest). lia.
Qed.

Lemma text_cell_length (f : stream) (l : list float) (f' : stream) :
  text_cell f = Ret (l, f') -> length l = 3%nat.
Proof.
  unfold text_cell. intros Hrun.
  apply io_bind_ret in Hrun as (raw & f1 & _ & Hrun).
  apply lift_ret in Hrun as [Hrun _]. cbv zeta in Hrun.
  repeat (apply obind_ret in Hrun as (? & _ & Hrun)).
  injection Hrun as <-. reflexivity.
Qed.

Lemma text_decode_well_formed (headers : gmap string hval)
    (f f' : stream) (a : ndarray) :
  _text_decode headers f = Ret (a, f') -> well_formed a.
Proof.
  unfold _text_decode. intros Hrun.
  apply io_bind_ret in Hrun as (zs & f1 & _ & Hrun).
  apply io_bind_ret in Hrun as (ys & f2 & _ & Hrun).
  apply io_bind_ret in Hrun as (xs & f3 & _ & Hrun).
  apply io_bind_ret in Hrun as ([] & f4 & Hcheck & Hrun).
  apply io_bind_ret in Hrun as (cells & f5 & Hcells & Hrun).
  apply io_bind_ret in Hrun as (m & f6 & _ & Hrun).
  injection Hrun as <- _.
  apply lift_ret in Hcheck as [Hcheck _]. unfold np_empty_check in Hcheck.
  destruct (shape_ok _ _) eqn:Hok; try discriminate.
  apply andb_prop in Hok as [Hdims _]. cbn [forallb] in Hdims.
  repeat (apply andb_prop in Hdims as [[?%Z.leb_le _]%andb_prop Hdims]).
  pose proof (repeat_io_length _ _ _
                (repeat_io_length _ _ _
                   (repeat_io_length _ 3 _ text_cell_length)) _ _ _ Hcells) as Hlen.
  unfold well_formed, product. cbn [shape data fold_right].
  rewrite length_map, Hlen. nia.
Qed.

(** The text decoder scales: every element of its result is a parsed
    value times the header's [valuemultiplier], and times 1.0 when the
    header has none. *)
Lemma text_decode_scaled (headers : gmap string hval) (f f' : stream)
    (a : ndarray) :
  _text_decode headers f = Ret (a, f') ->
  exists m cells,
    multiplier headers = Ret m
    /\ data a = map (fun x => float_mul x m) cells
    /\ (headers !! "valuemultiplier"%string = None -> m = float_of_int 1).
Proof.
  unfold _text_decode. intros Hrun.
  apply io_bind_ret in Hrun as (zs & f1 & _ & Hrun).
  apply io_bind_ret in Hrun as (ys & f2 & _ & Hrun).
  apply io_bind_ret in Hrun as (xs & f3 & _ & Hrun).
  apply io_bind_ret in Hrun as ([] & f4 & _ & Hrun).
  apply io_bind_ret in Hrun as (cells & f5 & _ & Hrun).
  apply io_bind_ret in Hrun as (m & f6 & Hm & Hrun).
  injection Hrun as <- _. apply lift_ret in Hm as [Hm _].
  exists m, cells. repeat split; [exact Hm|].
  intros Hnone. unfold multiplier in Hm. rewrite Hnone in Hm.
  change (Ret (float_of_int 1) = Ret m) in Hm. congruence.
Qed.

Lemma fast_binary_decode_well_formed (w : Z) (headers : gmap string hval)
    (dtype : string) (f f' : stream) (a : ndarray) :
  _fast_binary_decode w headers dtype f = Ret (a, f') -> well_formed a.
Proof.
  unfold _fast_binary_decode. intros Hrun.
  apply io_bind_ret in Hrun as (xs & f1 & _ & Hrun).
  apply io_bind_ret in Hrun as (ys & f2 & _ & Hrun).
  apply io_bind_ret in Hrun as (zs & f3 & _ & Hrun).
  apply io_bind_ret in Hrun as (buffer & f4 & _ & Hrun).
  apply lift_ret in Hrun as [Hrun _].
  apply obind_ret in Hrun as (ret & _ & Hrun).
  exact (np_reshape_well_formed _ _ _ _ Hrun).
Qed.

(** Every array that [unpack] returns holds as many elements as its
    shape says. *)
Lemma unpack_well_formed (fuel : nat) (fs : gmap path node) (p : path)
    (a : ndarray) :
  unpack fuel fs p = Ret (Some a) -> well_formed a.
Proof.
  unfold unpack. intros Hrun.
  apply obind_ret in Hrun as (f & _ & Hrun).
  apply obind_ret in Hrun as ([v f'] & Hfile & Hrun).
  cbn [fst] in Hrun. injection Hrun as ->.
  unfold unpack_file in Hfile.
  apply io_bind_ret in Hfile as (headers & f1 & _ & Hfile).
  apply io_bind_ret in Hfile as (kind & f2 & _ & Hfile).
  destruct (decide (kind = lit "Text")).
  { apply io_bind_ret in Hfile as (a' & f3 & Hdec & Hfile).
    injection Hfile as -> _. exact (text_decode_well_formed _ _ _ _ Hdec). }
  destruct (decide (kind = lit "Binary")); [|discriminate].
  apply io_bind_ret in Hfile as (width & f3 & _ & Hfile).
  apply io_bind_ret in Hfile as (chunk & f4 & _ & Hfile).
  apply io_bind_ret in Hfile as (dtype & f5 & _ & Hfile).
  apply io_bind_ret in Hfile as (a' & f6 & Hdec & Hfile).
  injection Hfile as -> _. exact (fast_binary_decode_well_formed _ _ _ _ _ _ Hdec).
Qed.
End WellFormed.

(** The sub-arrays of a stack of well-formed arrays of one shape are the
    arrays stacked. *)
Lemma subarray_stack (arrs : list ndarray) (s : list Z) (n0 : Z)
    (i : nat) (a : ndarray) :
  Forall (fun a => shape a = s /\ well_formed a) arrs ->
  arrs !! i = Some a ->
  subarray {| shape := n0 :: s; data := concat (map data arrs) |} i = a.
Proof.
  unfold subarray. cbn [shape data tail]. intros Hall.
  set (n := Z.to_nat (product s)).
  assert (Forall (fun a => shape a = s /\ length (data a) = n) arrs) as Hlen.
  { eapply Forall_impl; [exact Hall|]. intros b [Hs Hwf]. split; [exact Hs|].
    unfold well_formed in Hwf. rewrite Hs in Hwf. subst n. lia. }
  clear Hall. revert i. induction Hlen as [|b arrs [Hs Hb] _ IH]; intros i Hi.
  - discriminate.
  - cbn [map concat]. destruct i as [|i].
    + injection Hi as ->. cbn [Nat.mul]. rewrite drop_0.
      rewrite take_app_length' by (symmetry; exact Hb).
      destruct a; cbn in *; congruence.
    + cbn [lookup list_lookup] in Hi.
      replace (S i * n)%nat with (length (data b) + i * n)%nat by lia.
      rewrite drop_app_add. apply IH. exact Hi.
Qed.

(** ** The directory reader *)

#[export] Instance path_le_total : Total path_le.
Proof.
  unfold Total, path_le. intros p. induction p as [|a p IH]; intros q.
  - left. reflexivity.
  - destruct q as [|b q]; [right; reflexivity|].
    cbn [path_leb]. rewrite (String.compare_antisym b a).
    destruct (String.compare a b); cbn [CompOpp]; auto.
Qed.

Lemma sorted_spec (l : list path) : sorted l ≡ₚ l /\ Sorted path_le (sorted l).
Proof.
  split; [apply merge_sort_Permutation|].
  apply Sorted_merge_sort, path_le_total.
Qed.

Lemma np_array_stack (arrs : list ndarray) (s : list Z) :
  arrs <> [] ->
  Forall (fun a => shape a = s) arrs ->
  np_array (map Some arrs)
  = Ret (Numeric {| shape := Z.of_nat (length arrs) :: s;
                    data := concat (map data arrs) |}).
Proof.
  intros Hne Hshape. destruct arrs as [|a arrs]; [congruence|].
  unfold np_array. cbn [map].
  assert (forallb (fun w : pyval => bool_decide (val_shape w = val_shape (Some a)))
            (Some a :: map Some arrs) = true) as ->.
  { apply forallb_forall. intros w Hin. apply bool_decide_eq_true.
    change (Some a :: map Some arrs) with (map Some (a :: arrs)) in Hin.
    apply in_map_iff in Hin as (a' & <- & Hin'). cbn [val_shape].
    rewrite Forall_forall in Hshape.
    rewrite (Hshape a') by (apply list_elem_of_In; exact Hin').
    rewrite (Hshape a) by (apply list_elem_of_In; left; reflexivity).
    reflexivity. }
  rewrite Forall_forall in Hshape.
  rewrite (Hshape a) by (apply list_elem_of_In; left; reflexivity).
  do 3 f_equal.
  - cbn [length]. rewrite length_map. reflexivity.
  - cbn [map concat from_option]. f_equal. rewrite map_map. reflexivity.
Qed.

Section GroupFacts.
Context `{Builtins}.

Lemma unpack_all_ok (fuel : nat) (fs : gmap path node)
    (files : list path) (arrs : list ndarray) :
  Forall2 (fun f a => unpack fuel fs f = Ret (Some a)) files arrs ->
  unpack_all fuel fs files = Ret (map Some arrs).
Proof.
  induction 1 as [|f a files arrs Hf _ IH]; [reflexivity|].
  cbn [unpack_all map]. rewrite Hf. cbn [obind]. rewrite IH. reflexivity.
Qed.

Lemma unpack_all_fails (fuel : nat) (fs : gmap path node)
    (files : list path) (f : path) :
  f ∈ files ->
  (forall v, unpack fuel fs f <> Ret v) ->
  forall vs, unpack_all fuel fs files <> Ret vs.
Proof.
  intros Hin Hfail. induction files as [|g files IH]; intros vs.
  - apply elem_of_nil in Hin. contradiction.
  - cbn [unpack_all]. apply elem_of_cons in Hin as [<- | Hin].
    + destruct (unpack fuel fs f) as [v| |] eqn:Hf; cbn [obind];
        [exfalso; exact (Hfail v eq_refl) | discriminate | discriminate].
    + destruct (unpack fuel fs g) as [v| |]; cbn [obind]; try discriminate.
      destruct (unpack_all fuel fs files) as [vs'| |] eqn:Hall; cbn [obind];
        try discriminate.
      exfalso. exact (IH Hin vs' eq_refl).
Qed.

Lemma unpack_all_first_failure (fuel : nat) (fs : gmap path node)
    (before later : list path) (f : path) (e : exn) :
  Forall (fun g => exists v, unpack fuel fs g = Ret v) before ->
  unpack fuel fs f = Raise e ->
  unpack_all fuel fs (before ++ f :: later) = Raise e.
Proof.
  intros Hbefore Hf. induction Hbefore as [|g before [v Hg] _ IH].
  - cbn [app unpack_all]. rewrite Hf. reflexivity.
  - cbn [app unpack_all]. rewrite Hg. cbn [obind]. rewrite IH. reflexivity.
Qed.

(** Among files that all end, up to one that raises, there is a first
    one that raises: the files before it return. *)
Lemma first_failure (fuel : nat) (fs : gmap path node)
    (before later : list path) (f : path) (e : exn) :
  Forall (fun g => unpack fuel fs g <> OutOfFuel) before ->
  unpack fuel fs f = Raise e ->
  exists returned first rest e',
    before ++ f :: later = returned ++ first :: rest
    /\ Forall (fun g => exists v, unpack fuel fs g = Ret v) returned
    /\ unpack fuel fs first = Raise e'.
Proof.
  intros Hends Hf. induction Hends as [|g before Hg _ IH].
  - exists [], f, later, e. repeat split; [constructor | exact Hf].
  - destruct (unpack fuel fs g) as [v|e0|] eqn:Hrun; [| |congruence].
    + destruct IH as (returned & first & rest & e' & Heq & Hret & Hfirst).
      exists (g :: returned), first, rest, e'. cbn [app]. rewrite Heq.
      repeat split; [constructor; eauto | exact Hfirst].
    + exists [], g, (before ++ f :: later), e0.
      repeat split; [constructor | exact Hrun].
Qed.

Lemma decoded_well_formed (fuel : nat) (fs : gmap path node)
    (files : list path) (arrs : list ndarray) :
  Forall2 (fun f a => unpack fuel fs f = Ret (Some a)) files arrs ->
  Forall well_formed arrs.
Proof.
  induction 1 as [|f a files arrs Hf _ IH]; constructor; [|exact IH].
  exact (unpack_well_formed _ _ _ _ Hf).
Qed.

(** C9, as the code has it. For a path [p] that is a directory named
    [*.out], or a file named [*.ovf] standing for its parent
    directory: the files decoded are those of the directory matching
    [m*.ovf], in the lexicographic order of their names; when there is
    at least one, each decodes to an array, the arrays have one shape
    [s] and the stack is within the size limit of numpy, the result is
    the stack of shape [N :: s] whose element [i] along the leading axis
    is the decode of file [i]; when the decode of a file raises an
    exception and the decode of every file before it ends,
    [group_unpack] raises an exception and returns no series: the
    exception of the first file, in that order, whose decode raises,
    the files before that one having returned. *)
Theorem group_unpack_series (fuel : nat) (fs : gmap path node)
    (p dir : path) :
  (path_suffix p = ".out"%string /\ dir = p)
  \/ (path_suffix p = ".ovf"%string /\ dir = path_parent p) ->
  let files := sorted (glob fs dir "m*.ovf") in
  (files ≡ₚ glob fs dir "m*.ovf" /\ Sorted path_le files)
  /\ (forall (arrs : list ndarray) (s : list Z),
        files <> [] ->
        Forall2 (fun f a => unpack fuel fs f = Ret (Some a)) files arrs ->
        Forall (fun a => shape a = s) arrs ->
        array_bytes 8 (Z.of_nat (length files) :: s) <= max_intp ->
        let series := {| shape := Z.of_nat (length files) :: s;
                         data := concat (map data arrs) |} in
        group_unpack fuel fs p = Ret (Numeric series)
        /\ forall i f,
             files !! i = Some f ->
             unpack fuel fs f = Ret (Some (subarray series i)))
  /\ (forall before f later e,
        files = before ++ f :: later ->
        Forall (fun g => unpack fuel fs g <> OutOfFuel) before ->
        unpack fuel fs f = Raise e ->
        exists returned first rest e',
          files = returned ++ first :: rest
          /\ Forall (fun g => exists v, unpack fuel fs g = Ret v) returned
          /\ unpack fuel fs first = Raise e'
          /\ group_unpack fuel fs p = Raise e').
Proof.
  intros Hcase files.
  assert (group_files fs p = Some files) as Hfiles.
  { unfold group_files. destruct Hcase as [[Hsuf ->] | [Hsuf ->]].
    - rewrite decide_True by assumption. reflexivity.
    - rewrite decide_False by (rewrite Hsuf; discriminate).
      rewrite decide_True by assumption. reflexivity. }
  split; [apply sorted_spec|]. split.
  - intros arrs s Hne Hdec Hshape _ series. split.
    + unfold group_unpack, pathize. rewrite Hfiles. cbn [or_raise obind].
      rewrite (unpack_all_ok _ _ _ _ Hdec). cbn [obind]. subst series.
      rewrite (Forall2_length _ _ _ Hdec).
      apply np_array_stack; [|exact Hshape].
      intros ->. apply Forall2_nil_inv_r in Hdec. contradiction.
    + intros i f Hi.
      destruct (Forall2_lookup_l _ _ _ _ _ Hdec Hi) as (a & Ha & Hf).
      rewrite Hf. do 2 f_equal. symmetry.
      apply (subarray_stack arrs s); [|exact Ha].
      apply Forall_and. split; [exact Hshape|].
      exact (decoded_well_formed _ _ _ _ Hdec).
  - intros before f later e Hsplit Hends Hf.
    destruct (first_failure fuel fs before later f e Hends Hf)
      as (returned & first & rest & e' & Heq & Hret & Hfirst).
    exists returned, first, rest, e'.
    rewrite <- Hsplit in Heq. repeat split; try assumption.
    unfold group_unpack, pathize. rewrite Hfiles. cbn [or_raise obind].
    rewrite Heq, (unpack_all_first_failure _ _ _ _ _ _ Hret Hfirst).
    reflexivity.
Qed.
End GroupFacts.

(** C9 as stated fails: the directory [run] holds two files matching
    [m*.ovf], each of which decodes, and [group_unpack] raises the
    unbound-name error instead of returning their stack. *)
Lemma group_unpack_plain_directory_fails :
  sorted (glob fs_runs ["run"%string] "m*.ovf")
  = [["run"; "m000000.ovf"]; ["run"; "m000001.ovf"]]%string
  /\ unpack 10 fs_runs ["run"; "m000000.ovf"]%string
     = Ret (Some {| shape := [1; 1; 1; 3]; data := map f64 [1; 2; 3] |})
  /\ unpack 10 fs_runs ["run"; "m000001.ovf"]%string
     = Ret (Some {| shape := [1; 1; 1; 3]; data := map f64 [4; 5; 6] |})
  /\ group_unpack 10 fs_runs ["run"%string] = Raise (UnboundLocalError "files").
Proof. repeat split; vm_compute; reflexivity. Qed.

Lemma group_unpack_series_witness :
  let series := {| shape := [2; 1; 1; 1; 3];
                   data := map f64 [1; 2; 3; 4; 5; 6] |} in
  (group_unpack 10 fs_runs ["run.out"%string] = Ret (Numeric series)
   /\ forall i f,
        [["run.out"; "m000000.ovf"]; ["run.out"; "m000001.ovf"]]%string !! i
        = Some f ->
        unpack 10 fs_runs f = Ret (Some (subarray series i)))
  /\ exists returned first rest e',
       sorted (glob fs_broken ["bad.out"%string] "m*.ovf")
       = returned ++ first :: rest
       /\ Forall (fun g => exists v, unpack 10 fs_broken g = Ret v) returned
       /\ unpack 10 fs_broken first = Raise e'
       /\ group_unpack 10 fs_broken ["bad.out"%string] = Raise e'.
Proof.
  split.
  - pose proof (group_unpack_series 10 fs_runs ["run.out"%string]
                  ["run.out"%string] (or_introl (conj eq_refl eq_refl))) as Hthm.
    cbv zeta in Hthm. destruct Hthm as (_ & Hstack & _).
    refine (Hstack [ {| shape := [1; 1; 1; 3]; data := map f64 [1; 2; 3] |};
                     {| shape := [1; 1; 1; 3]; data := map f64 [4; 5; 6] |} ]
              [1; 1; 1; 3] _ _ _ _).
    + vm_compute. discriminate.
    + change (sorted (glob fs_runs ["run.out"%string] "m*.ovf"))
        with [["run.out"; "m000000.ovf"]; ["run.out"; "m000001.ovf"]]%string.
      repeat constructor; vm_compute; reflexivity.
    + repeat constructor.
    + vm_compute. discriminate.
  - pose proof (group_unpack_series 10 fs_broken ["bad.out"%string]
                  ["bad.out"%string] (or_introl (conj eq_refl eq_refl))) as Hthm.
    cbv zeta in Hthm. destruct Hthm as (_ & _ & Hfail).
    refine (Hfail [["bad.out"; "m000000.ovf"]%string]
              ["bad.out"; "m000001.ovf"]%string
              [["bad.out"; "m000002.ovf"]%string] IndexError _ _ _).
    + vm_compute. reflexivity.
    + repeat constructor. vm_compute. discriminate.
    + vm_compute. reflexivity.
Defined.

(** ** Decoded values are floats of their format *)

Lemma digits2_pos_log2 (p : positive) :
  Z.pos (digits2_pos p) = Z.log2 (Z.pos p) + 1.
Proof.
  assert (forall q, Z.pos (digits2_pos q) = Z.pos (Pos.size q)) as Hsize.
  { induction q as [q IH|q IH|]; cbn [digits2_pos Pos.size]; [| |reflexivity];
      rewrite !Pos2Z.inj_succ, IH; reflexivity. }
  destruct p as [p|p|]; cbn [Z.log2 digits2_pos]; [| |reflexivity];
    rewrite Pos2Z.inj_succ, Hsize; lia.
Qed.

(** A canonical mantissa within the exponent range is left as it is by
    rounding. *)
Lemma binary_normalize_canonical (prec emax : Z) (s : bool) (m : positive)
    (e : Z) :
  canonical_mantissa prec emax m e = true ->
  e <= emax - prec ->
  binary_normalize prec emax (if s then Z.neg m else Z.pos m) e s
  = S754_finite s m e.
Proof.
  intros Hcan Hmax. apply Z.eqb_eq in Hcan.
  assert (binary_round prec emax s m e = S754_finite s m e) as Hround.
  { unfold binary_round, shl_align. rewrite Hcan, Z.sub_diag.
    unfold binary_round_aux, shr_fexp. cbn [Zdigits2].
    rewrite Hcan, Z.sub_diag. cbn [shr shr_record_of_loc shr_m loc_of_shr_record
      round_nearest_even Zdigits2].
    rewrite Hcan, Z.sub_diag. cbn [shr shr_record_of_loc shr_m].
    replace (e <=? emax - prec) with true by (symmetry; apply Z.leb_le; exact Hmax).
    reflexivity. }
  destruct s; exact Hround.
Qed.

Lemma float_of_bits_canonical (mw ew x : Z) (s : bool) (m : positive) (e : Z) :
  0 < mw -> 1 < ew ->
  float_of_bits mw ew x = S754_finite s m e ->
  canonical_mantissa (mw + 1) (2 ^ (ew - 1)) m e = true
  /\ e <= 2 ^ (ew - 1) - (mw + 1).
Proof.
  intros Hmw Hew. unfold float_of_bits, canonical_mantissa, fexp, emin.
  set (E := (x / 2 ^ mw) mod 2 ^ ew). set (m0 := x mod 2 ^ mw).
  set (half := 2 ^ (ew - 1)).
  assert (2 ^ ew = 2 * half) as Hpow.
  { subst half. rewrite <- Z.pow_succ_r by lia. f_equal. lia. }
  assert (2 <= half) as Hhalf.
  { subst half. change 2 with (2 ^ 1) at 1. apply Z.pow_le_mono_r; lia. }
  assert (0 < 2 ^ mw) as Hpmw by (apply Z.pow_pos_nonneg; lia).
  assert (0 <= E < 2 ^ ew) as HE by (apply Z.mod_pos_bound; lia).
  assert (0 <= m0 < 2 ^ mw) as Hm0 by (apply Z.mod_pos_bound; lia).
  rewrite digits2_pos_log2.
  destruct (E =? 0) eqn:HE0.
  { destruct m0 as [|p|p] eqn:Hp; try discriminate.
    intros [= <- <- <-].
    assert (Z.log2 (Z.pos p) < mw) by (apply Z.log2_lt_pow2; lia).
    split; [apply Z.eqb_eq|]; lia. }
  apply Z.eqb_neq in HE0.
  rewrite Hpow. destruct (E =? 2 * half - 1) eqn:HE1.
  { destruct (m0 =? 0); discriminate. }
  apply Z.eqb_neq in HE1.
  destruct (m0 + 2 ^ mw) as [|p|p] eqn:Hp; try discriminate.
  intros [= <- <- <-].
  assert (Z.log2 (Z.pos p) = mw) as Hlog.
  { apply log2_bits; [lia|]. rewrite Z.pow_add_r by lia. change (2 ^ 1) with 2. lia. }
  split; [apply Z.eqb_eq|]; lia.
Qed.

Lemma format_of_widths (dtype : string) (fm : format) :
  format_of dtype = Some fm ->
  0 < fmt_mw fm /\ 1 < fmt_ew fm /\ 0 < fmt_size fm.
Proof.
  unfold format_of.
  repeat match goal with
         | |- context [match ?s with EmptyString => _ | String _ _ => _ end] =>
             destruct s
         | |- context [match ?a with Ascii _ _ _ _ _ _ _ _ => _ end] =>
             destruct a
         | |- context [if ?b then _ else _] => destruct b
         end; try discriminate; intros [= <-]; cbn; lia.
Qed.

Lemma format_of_size (dtype : string) (fm : format) :
  format_of dtype = Some fm -> fmt_size fm <= 8.
Proof.
  unfold format_of.
  repeat match goal with
         | |- context [match ?s with EmptyString => _ | String _ _ => _ end] =>
             destruct s
         | |- context [match ?a with Ascii _ _ _ _ _ _ _ _ => _ end] =>
             destruct a
         | |- context [if ?b then _ else _] => destruct b
         end; try discriminate; intros [= <-]; cbn; lia.
Qed.

(** A value decoded in a format is stored unchanged in an array of that
    format. *)
Lemma np_store_item (dtype : string) (fm : format) (b : bytes) :
  format_of dtype = Some fm -> np_store fm (item fm b) = item fm b.
Proof.
  intros Hfm. destruct (format_of_widths dtype fm Hfm) as (Hmw & Hew & _).
  unfold np_store, item, fmt_prec, fmt_emax.
  destruct (float_of_bits _ _ _) as [| | |s m e] eqn:Hbits; try reflexivity.
  destruct (float_of_bits_canonical _ _ _ _ _ _ Hmw Hew Hbits) as [Hcan Hmax].
  apply binary_normalize_canonical; assumption.
Qed.

(** ** The loop-based decoder against the fast one *)

Section SlowFacts.
Context `{Builtins}.

(** Two loops in a row are one loop. *)
Lemma repeat_io_add (a b : nat) (body : io (list float)) (f : stream) :
  repeat_io (a + b) body f
  = (xs <~ repeat_io a body ;;
     ys <~ repeat_io b body ;;
     io_ret (xs ++ ys)) f.
Proof.
  revert f. induction a as [|a IH]; intros f.
  - cbn [Nat.add repeat_io]. unfold io_bind, io_ret.
    destruct (repeat_io b body f) as [[ys f']| |]; reflexivity.
  - cbn [Nat.add repeat_io]. unfold io_bind, io_ret.
    destruct (body f) as [[x f1]| |]; try reflexivity.
    rewrite IH. unfold io_bind, io_ret.
    destruct (repeat_io a body f1) as [[xs f2]| |]; try reflexivity.
    destruct (repeat_io b body f2) as [[ys f3]| |]; try reflexivity.
    rewrite app_assoc. reflexivity.
Qed.

(** A loop of loops is one loop over the product of the counts. *)
Lemma repeat_io_nested (n m : nat) (body : io (list float)) (f : stream) :
  repeat_io n (repeat_io m body) f = repeat_io (n * m) body f.
Proof.
  revert f. induction n as [|n IH]; intros f; [reflexivity|].
  cbn [Nat.mul repeat_io]. rewrite repeat_io_add. unfold io_bind.
  destruct (repeat_io m body f) as [[xs f1]| |]; try reflexivity.
  rewrite IH. reflexivity.
Qed.

Lemma payload_value_drop (fm : format) (f : stream) (t : Z) :
  0 <= t -> 0 < fmt_size fm ->
  payload_value fm (drop (Z.to_nat (fmt_size fm)) f) t
  = payload_value fm f (t + 1).
Proof.
  intros Ht Hw. unfold payload_value, slice. rewrite drop_drop.
  do 3 f_equal. nia.
Qed.

(** Reading [n] values one by one yields the first [n] values of the
    payload and leaves the cursor behind them. *)
Lemma repeat_read_values (n : nat) (decoder fm : format) (f : stream) :
  0 < fmt_size decoder <= max_bytes ->
  Z.of_nat n * fmt_size decoder <= Z.of_nat (length f) ->
  repeat_io n (read_value (fmt_size decoder) decoder fm) f
  = Ret (map (fun t => np_store fm (payload_value decoder f t))
           (seqZ 0 (Z.of_nat n)),
         drop (Z.to_nat (Z.of_nat n * fmt_size decoder)) f).
Proof.
  intros Hw. revert f. induction n as [|n IH]; intros f Hlen.
  - reflexivity.
  - cbn [repeat_io]. unfold io_bind at 1. unfold read_value at 1.
    unfold io_bind at 1, f_read. rewrite read_within by lia.
    unfold io_bind at 1, lift at 1, decoder_unpack.
    replace (Z.of_nat (length (take (Z.to_nat (fmt_size decoder)) f))
             =? fmt_size decoder) with true
      by (symmetry; apply Z.eqb_eq; rewrite length_take; lia).
    cbn [obind io_ret]. unfold io_bind at 1.
    rewrite IH by (rewrite length_drop; lia).
    unfold io_ret. cbn [app].
    rewrite (seqZ_cons 0 (Z.of_nat (S n))) by lia. cbn [map].
    replace (Z.pred (Z.of_nat (S n))) with (Z.of_nat n) by lia.
    apply f_equal, f_equal2.
    + apply f_equal2.
      * unfold payload_value, slice. reflexivity.
      * change (Z.succ 0) with (1 + 0).
        rewrite <- (fmap_add_seqZ 1 0).
        change (map ?g (Z.add 1 <$> ?l)) with (g <$> (Z.add 1 <$> l)).
        rewrite <- list_fmap_compose.
        apply map_ext_in. intros t Ht.
        apply list_elem_of_In, elem_of_seqZ in Ht. cbn [compose].
        rewrite payload_value_drop by lia. do 2 f_equal. lia.
    + rewrite drop_drop. f_equal. lia.
Qed.
End SlowFacts.

Section SlowTheorems.
Context `{Builtins}.

Lemma nested_count (nx ny nz : Z) :
  0 <= nx -> 0 <= ny -> 0 <= nz ->
  Z.of_nat (Z.to_nat nz * Z.to_nat ny * Z.to_nat nx * 3)
  = nx * ny * nz * 3.
Proof. intros. nia. Qed.

Lemma factor_multiplier (headers : gmap string hval) (m : float) :
  factor headers m -> multiplier headers = Ret m.
Proof.
  unfold factor, multiplier. intros [-> | [-> ->]]; reflexivity.
Qed.

(** X12. On a complete payload, for a geometry whose array, an axis of
    0 counted as 1, takes no more than [max_bytes] bytes, the loop-based
    decoder, run with the [struct.Struct] of the format of the array,
    returns the array of the fast decoder with each element multiplied
    by the factor of the header: the value stored under
    [valuemultiplier], and 1 when the header has no such key. It leaves
    the stream where the fast decoder leaves it. *)
Theorem binary_decode_refines_fast (nx ny nz : Z)
    (headers : gmap string hval) (dtype : string) (fm : format)
    (m : float) (f : stream) :
  nodes headers "xnodes" = Ret nx ->
  nodes headers "ynodes" = Ret ny ->
  nodes headers "znodes" = Ret nz ->
  0 <= nx -> 0 <= ny -> 0 <= nz ->
  _byte_decoder dtype = Ret fm ->
  factor headers m ->
  nx * ny * nz * 3 * fmt_size fm <= Z.of_nat (length f) ->
  array_bytes (fmt_size fm) [nz; ny; nx; 3] <= max_bytes ->
  exists a rest,
    _fast_binary_decode (fmt_size fm) headers dtype f = Ret (a, rest)
    /\ _binary_decode (fmt_size fm) fm headers dtype f
       = Ret ({| shape := shape a;
                 data := map (fun x => np_multiply fm x m) (data a) |}, rest).
Proof.
  intros Hx Hy Hz Hnx Hny Hnz Hdec Hm%factor_multiplier Hlen Hbytes.
  assert (format_of dtype = Some fm) as Hfm.
  { unfold _byte_decoder in Hdec.
    destruct (format_of dtype); [injection Hdec as ->; reflexivity|discriminate]. }
  destruct (format_of_widths dtype fm Hfm) as (_ & _ & Hw).
  pose proof (format_of_size dtype fm Hfm) as Hw8.
  assert (max_bytes <= max_intp /\ 8 <= max_bytes) as [Hmax Hmin]
    by (rewrite max_bytes_eq, max_intp_eq; lia).
  assert (Forall (fun d => 0 <= d) [nz; ny; nx; 3]) as Hpos
    by (repeat constructor; lia).
  eexists _, _. split.
  - apply (fast_binary_decode_eq _ nx ny nz _ _ fm); auto.
  - cbn [shape data].
    unfold _binary_decode, io_bind, lift. rewrite Hz, Hy, Hx.
    cbn [obind]. rewrite (is_intp_bytes (fmt_size fm)) by (assumption || lia).
    rewrite Hfm. cbn [obind or_raise]. unfold np_empty_check.
    rewrite shape_ok_bytes by (assumption || lia). cbn [obind].
    rewrite !repeat_io_nested.
    rewrite repeat_read_values by (try rewrite nested_count by assumption; lia).
    rewrite Hm. cbn [obind]. unfold io_ret.
    rewrite ?nested_count by assumption. rewrite ?map_map.
    apply f_equal, f_equal2; [|reflexivity]. f_equal.
    apply map_ext. intros t.
    unfold payload_value. rewrite (np_store_item dtype) by exact Hfm.
    reflexivity.
Qed.

Lemma repeat_read_short (n : nat) (decoder fm : format) (f : stream) :
  0 < fmt_size decoder <= max_bytes ->
  Z.of_nat (length f) < Z.of_nat n * fmt_size decoder ->
  repeat_io n (read_value (fmt_size decoder) decoder fm) f = Raise StructError.
Proof.
  intros Hw. revert f. induction n as [|n IH]; intros f Hlen; [lia|].
  cbn [repeat_io]. unfold io_bind at 1. unfold read_value at 1.
  unfold io_bind at 1, f_read. rewrite read_within by lia.
  unfold io_bind at 1, lift at 1, decoder_unpack.
  destruct (Z_lt_le_dec (Z.of_nat (length f)) (fmt_size decoder)) as [Hshort|Hfull].
  - replace (Z.of_nat (length (take (Z.to_nat (fmt_size decoder)) f))
             =? fmt_size decoder) with false
      by (symmetry; apply Z.eqb_neq; rewrite length_take; lia).
    reflexivity.
  - replace (Z.of_nat (length (take (Z.to_nat (fmt_size decoder)) f))
             =? fmt_size decoder) with true
      by (symmetry; apply Z.eqb_eq; rewrite length_take; lia).
    cbn [obind io_ret]. unfold io_bind.
    rewrite IH by (rewrite length_drop; lia). reflexivity.
Qed.

(** X13. On a payload shorter than the geometry asks for, for a
    geometry whose array, an axis of 0 counted as 1, takes no more than
    [max_intp] bytes, the loop-based decoder, run with the
    [struct.Struct] of the format of the array, raises [struct.error]:
    no partial array is returned. *)
Theorem binary_decode_truncated (nx ny nz : Z)
    (headers : gmap string hval) (dtype : string) (fm : format)
    (f : stream) :
  nodes headers "xnodes" = Ret nx ->
  nodes headers "ynodes" = Ret ny ->
  nodes headers "znodes" = Ret nz ->
  0 <= nx -> 0 <= ny -> 0 <= nz ->
  _byte_decoder dtype = Ret fm ->
  Z.of_nat (length f) < nx * ny * nz * 3 * fmt_size fm ->
  array_bytes (fmt_size fm) [nz; ny; nx; 3] <= max_intp ->
  _binary_decode (fmt_size fm) fm headers dtype f = Raise StructError.
Proof.
  intros Hx Hy Hz Hnx Hny Hnz Hdec Hlen Hbytes.
  assert (format_of dtype = Some fm) as Hfm.
  { unfold _byte_decoder in Hdec.
    destruct (format_of dtype); [injection Hdec as ->; reflexivity|discriminate]. }
  destruct (format_of_widths dtype fm Hfm) as (_ & _ & Hw).
  pose proof (format_of_size dtype fm Hfm) as Hw8.
  assert (8 <= max_bytes) as Hmin by (rewrite max_bytes_eq; lia).
  assert (Forall (fun d => 0 <= d) [nz; ny; nx; 3]) as Hpos
    by (repeat constructor; lia).
  unfold _binary_decode, io_bind, lift. rewrite Hz, Hy, Hx.
  cbn [obind]. rewrite (is_intp_bytes (fmt_size fm)) by assumption.
  rewrite Hfm. cbn [obind or_raise]. unfold np_empty_check.
  rewrite shape_ok_bytes by assumption. cbn [obind].
  rewrite !repeat_io_nested.
  rewrite repeat_read_short by (try rewrite nested_count by assumption; lia).
  reflexivity.
Qed.

(** X14. On every file whose marker line announces [Binary] with a
    width that [int] accepts, [unpack_slow] raises [NameError]: the name
    [nbytes] it passes to [_endianness] is defined nowhere. *)
Theorem unpack_slow_binary_name_error (fuel : nat) (fs : gmap path node)
    (p : path) (f rest : stream) (headers : gmap string hval)
    (width : str) (w : Z) :
  open fs p = Ret f ->
  _read_header fuel f = Ret (headers, rest) ->
  data_type headers 3 = Ret (lit "Binary") ->
  data_type headers 4 = Ret width ->
  py_int width = Some w ->
  unpack_slow fuel fs p = NameError "nbytes".
Proof.
  intros Hopen Hhead Hkind Hwidth Hint.
  unfold unpack_slow, pathize. rewrite Hopen.
  unfold unpack_slow_file. rewrite Hhead, Hkind.
  rewrite decide_False by discriminate.
  rewrite decide_True by reflexivity.
  rewrite Hwidth. cbn [obind]. rewrite Hint. reflexivity.
Qed.

(** X15. Whenever [unpack_slow] does not raise that [NameError], it ends
    as [unpack] does: with the same array, the same [None] or the same
    exception. *)
Theorem unpack_slow_otherwise_unpack (fuel : nat) (fs : gmap path node)
    (p : path) :
  unpack_slow fuel fs p = NameError "nbytes"
  \/ exists r,
       unpack_slow fuel fs p = Finished r
       /\ unpack fuel fs p = (x <- r ;; Ret x.1).
Proof.
  unfold unpack_slow, unpack.
  destruct (open fs (pathize p)) as [f| |]; cbn [obind];
    [|right; eexists; split; reflexivity ..].
  assert (unpack_slow_file fuel f = NameError "nbytes"
          \/ unpack_slow_file fuel f = Finished (unpack_file fuel f))
    as [Hname | Hsame]; [|left; exact Hname|right; eauto].
  unfold unpack_slow_file, unpack_file, io_bind, lift.
  destruct (_read_header fuel f) as [[headers f1]| |]; auto.
  destruct (data_type headers 3) as [kind| |]; cbn [obind]; auto.
  destruct (decide (kind = lit "Text")); auto.
  destruct (decide (kind = lit "Binary")); auto.
  destruct (data_type headers 4) as [width| |]; cbn [obind]; auto.
  destruct (py_int width) as [w|]; cbn [or_raise obind]; auto.
Qed.
End SlowTheorems.

Lemma binary_decode_refines_witness :
  exists a rest,
    _fast_binary_decode 4 headers_vector_x2 "<f" f32le_1_to_6 = Ret (a, rest)
    /\ _binary_decode 4 float32_le headers_vector_x2 "<f" f32le_1_to_6
       = Ret ({| shape := shape a;
                 data := map (fun x => np_multiply float32_le x (f64 2))
                             (data a) |}, rest).
Proof.
  apply (binary_decode_refines_fast 2 1 1 headers_vector_x2 "<f" float32_le
           (f64 2) f32le_1_to_6);
    try (vm_compute; solve [reflexivity | discriminate]).
  left. reflexivity.
Defined.

Lemma binary_decode_truncated_witness :
  _binary_decode 4 float32_le headers_vector_x2 "<f" (take 22 f32le_1_to_6)
  = Raise StructError.
Proof.
  apply (binary_decode_truncated 2 1 1 headers_vector_x2 "<f" float32_le
           (take 22 f32le_1_to_6));
    vm_compute; solve [reflexivity | discriminate].
Defined.

Lemma unpack_slow_binary_witness :
  unpack_slow 10 fs_files ["vector.ovf"%string] = NameError "nbytes".
Proof.
  apply (unpack_slow_binary_name_error 10 fs_files ["vector.ovf"%string]
           file_vector_x2 (rev mark4 ++ f32le_1_to_6) headers_vector_x2
           (lit "4") 4); vm_compute; reflexivity.
Defined.

(** ** What a returned header holds *)

Lemma readline_app (f : stream) : f = (readline f).1 ++ (readline f).2.
Proof.
  induction f as [|b f IH]; [reflexivity|].
  cbn [readline]. destruct (byte_val b =? 10); [reflexivity|].
  destruct (readline f) as [raw rest]. cbn [fst snd app] in *. congruence.
Qed.



Section HeaderResult.
Context `{Builtins}.

Lemma header_loop_returns (fuel : nat) (line0 : str)
    (headers0 h : gmap string hval) (f rest : stream) :
  contains (lit "Begin: Data") line0 = false ->
  header_loop fuel line0 headers0 f = Ret (h, rest) ->
  exists before raw line,
    f = before ++ raw ++ rest
    /\ readline (raw ++ rest) = (raw, rest)
    /\ decode (bytes_strip raw) = Ret line
    /\ contains (lit "Begin: Data") line = true
    /\ h !! "data_type"%string = Some (HList (str_split line)).
Proof.
  revert line0 headers0 f.
  induction fuel as [|fuel IH]; intros line0 headers0 f Hline Hrun.
  - cbn [header_loop] in Hrun. rewrite Hline in Hrun. discriminate.
  - rewrite header_loop_step in Hrun by exact Hline.
    pose proof (readline_app f) as Hsplit.
    destruct (readline f) as [raw0 rest0] eqn:Hread. cbn [fst snd] in *.
    apply obind_ret in Hrun as (line' & Hdec & Hrun).
    apply obind_ret in Hrun as (headers' & _ & Hrun).
    destruct (contains (lit "Begin: Data") line') eqn:Hline'.
    + rewrite header_loop_done in Hrun by exact Hline'.
      injection Hrun as <- <-.
      exists [], raw0, line'. rewrite <- Hsplit, Hread.
      repeat split; try assumption. apply lookup_insert_eq.
    + destruct (IH _ _ _ Hline' Hrun)
        as (before & raw & line & Hrest & Hraw & Hdec' & Hmark & Htype).
      exists (raw0 ++ before), raw, line.
      rewrite <- app_assoc, <- Hrest. auto.
Qed.

(** X3. When the header reader returns, it has read the stream up to and
    including a line that shows the marker: the stream left is what
    follows that line, and [data_type] is the list of the blank-separated
    tokens of that line. *)
Theorem read_header_returns_marker_line (fuel : nat) (f rest : stream)
    (h : gmap string hval) :
  _read_header fuel f = Ret (h, rest) ->
  exists before raw line,
    f = before ++ raw ++ rest
    /\ readline (raw ++ rest) = (raw, rest)
    /\ decode (bytes_strip raw) = Ret line
    /\ contains (lit "Begin: Data") line = true
    /\ h !! "data_type"%string = Some (HList (str_split line)).
Proof. apply header_loop_returns. reflexivity. Qed.
End HeaderResult.

Lemma read_header_returns_witness :
  exists before raw line,
    file_example = before ++ raw ++ (rev mark4 ++ f32le_1_to_6)
    /\ readline (raw ++ (rev mark4 ++ f32le_1_to_6))
       = (raw, rev mark4 ++ f32le_1_to_6)
    /\ decode (bytes_strip raw) = Ret line
    /\ contains (lit "Begin: Data") line = true
    /\ (<["data_type" := HList (str_split (lit "# Begin: Data Binary 4"))]>
        (<["znodes" := HFloat (f64 1)]>
        (<["ynodes" := HFloat (f64 1)]>
        (<["xnodes" := HFloat (f64 2)]> header_defaults))))
       !! "data_type"%string = Some (HList (str_split line)).
Proof.
  apply (read_header_returns_marker_line 10 file_example).
  vm_compute. reflexivity.
Defined.

Section HeaderDefaults.
Context `{Builtins}.




End HeaderDefaults.

(** Settle [trigger_free] on a concrete stream: every line is computed
    and inspected. *)
Ltac settle_lines :=
  let raw := fresh "raw" in
  let line := fresh "line" in
  let Hin := fresh "Hin" in
  let Hdec := fresh "Hdec" in
  intros raw line Hin Hdec; vm_compute in Hin;
  repeat (destruct Hin as [<- | Hin];
          [vm_compute in Hdec;
           first [discriminate Hdec
                 | injection Hdec as <-; vm_compute; reflexivity] |]);
  contradiction.


(** ** The byte-order detector on other inputs *)



(** X6. For a width of 4 or 8 and a stream that holds fewer bytes, the
    detector raises [struct.error]. *)
Theorem endianness_short_stream (w : Z) (f : stream) :
  w = 4 \/ w = 8 ->
  Z.of_nat (length f) < w ->
  _endianness w f = Raise StructError.
Proof.
  intros Hw Hlen. unfold _endianness, io_bind, f_read, lift.
  rewrite read_within by (rewrite max_bytes_eq; lia). cbv beta iota.
  assert (Z.of_nat (length (take (Z.to_nat w) f)) <> w) as Hbuf
    by (rewrite length_take; lia).
  apply Z.eqb_neq in Hbuf.
  assert (dict_get big_endian w = Ret (order_name true w)) as ->
    by (destruct Hw as [-> | ->]; reflexivity).
  cbn [obind]. unfold struct_unpack.
  assert (exists fm, format_of (order_name true w) = Some fm
                     /\ fmt_size fm = w) as (fm & -> & Hsize)
    by (destruct Hw as [-> | ->]; eexists; split; reflexivity).
  cbn [or_raise obind]. rewrite Hsize, Hbuf. reflexivity.
Qed.

Lemma endianness_short_stream_witness :
  _endianness 4 [x38; xb4; x96] = Raise StructError.
Proof.
  apply (endianness_short_stream 4 [x38; xb4; x96]);
    [left; reflexivity | reflexivity].
Defined.

(** ** More on the decoders *)

Lemma endianness_mark (big : bool) (w : Z) (f : stream) :
  w = 4 \/ w = 8 ->
  w <= Z.of_nat (length f) ->
  take (Z.to_nat w) f = (if big then mark w else rev (mark w)) ->
  _endianness w f = Ret (order_name big w, drop (Z.to_nat w) f).
Proof.
  intros Hw Hlen Hmark.
  assert (Z.of_nat (length (take (Z.to_nat w) f)) = w) as Hbuf
    by (rewrite length_take; lia).
  rewrite endianness_eq by assumption. cbv zeta. destruct big.
  - rewrite (proj2 (interpretation_magic true w _ Hw Hbuf) Hmark). reflexivity.
  - rewrite (proj2 (interpretation_magic false w _ Hw Hbuf) Hmark).
    destruct (float_eq (interpretation true w _) (magic w)) eqn:Hbe; [|reflexivity].
    apply (interpretation_magic true w _ Hw Hbuf) in Hbe.
    rewrite Hbe in Hmark. exfalso. clear -Hw Hmark.
    destruct Hw as [-> | ->]; discriminate.
Qed.

Lemma np_getitem_scalar (nx ny nz k j i : Z) (values : list float) :
  0 <= k < nz -> 0 <= j < ny -> 0 <= i < nx ->
  np_getitem {| shape := [nz; ny; nx]; data := values |} [k; j; i]
  = values !! Z.to_nat ((k * ny + j) * nx + i).
Proof.
  intros Hk Hj Hi. unfold np_getitem. cbn [shape data flat_index].
  repeat match goal with
         | |- context [(0 <=? ?x) && (?x <? ?d)] =>
             replace ((0 <=? x) && (x <? d)) with true
               by (symmetry; apply andb_true_intro; split;
                   [apply Z.leb_le | apply Z.ltb_lt]; lia)
         end.
  reflexivity.
Qed.

Section DecoderTheorems.
Context `{Builtins}.

(** X8. [unpack_scalars] on a binary file: with the header read, a width
    [w] of 4 or 8, the control mark of one of the two byte orders, a
    complete payload and a geometry whose array, an axis of 0 counted as
    1, takes no more than [max_bytes] bytes, the result has shape
    (nz, ny, nx) and its element [k][j][i] is payload value number
    (k*ny + j)*nx + i read in the detected order, as it stands. *)
Theorem unpack_scalars_layout (fuel : nat) (fs : gmap path node) (p : path)
    (content rest : stream) (headers : gmap string hval) (width : str)
    (w nx ny nz : Z) (big : bool) :
  open fs p = Ret content ->
  _read_header fuel content = Ret (headers, rest) ->
  data_type headers 3 = Ret (lit "Binary") ->
  data_type headers 4 = Ret width ->
  py_int width = Some w ->
  w = 4 \/ w = 8 ->
  nodes headers "xnodes" = Ret nx ->
  nodes headers "ynodes" = Ret ny ->
  nodes headers "znodes" = Ret nz ->
  0 <= nx -> 0 <= ny -> 0 <= nz ->
  take (Z.to_nat w) rest = (if big then mark w else rev (mark w)) ->
  w + nx * ny * nz * w <= Z.of_nat (length rest) ->
  array_bytes w [nz; ny; nx] <= max_bytes ->
  exists a,
    unpack_scalars fuel fs p = Ret a
    /\ shape a = [nz; ny; nx]
    /\ forall k j i,
         0 <= k < nz -> 0 <= j < ny -> 0 <= i < nx ->
         np_getitem a [k; j; i]
         = Some (interpretation big w
                   (slice (drop (Z.to_nat w) rest)
                      (((k * ny + j) * nx + i) * w) w)).
Proof.
  intros Hopen Hhead Hkind Hwidth Hint Hw Hx Hy Hz Hnx Hny Hnz Hmark Hlen
    Hbytes.
  assert (0 <= nx * ny * nz) as Hn by nia.
  assert (0 < w) as Hwpos by (destruct Hw; lia).
  destruct (format_of_order_name big w Hw) as (fm & Hfm & Hsize & Hitem).
  pose proof (endianness_mark big w rest Hw ltac:(nia) Hmark) as Hend.
  eexists. split; [|split].
  - unfold unpack_scalars, pathize. rewrite Hopen. cbn [obind].
    unfold unpack_scalars_file, io_bind at 1. rewrite Hhead.
    unfold io_bind at 1, lift at 1. rewrite Hkind. cbn [obind].
    rewrite decide_True by reflexivity.
    unfold io_bind at 1, lift at 1. rewrite Hwidth. cbn [obind].
    unfold io_bind at 1, lift at 1. rewrite Hint. cbn [or_raise obind].
    unfold io_bind at 1. rewrite Hend.
    rewrite (fast_binary_decode_scalars_eq w nx ny nz headers _ fm);
      try assumption.
    + cbn [fst obind]. reflexivity.
    + rewrite length_drop. nia.
  - reflexivity.
  - intros k j i Hk Hj Hi.
    assert (0 <= (k * ny + j) * nx + i < nx * ny * nz) as Hidx.
    { assert (0 <= k * ny + j < nz * ny) by nia. nia. }
    rewrite np_getitem_scalar by assumption.
    rewrite list_lookup_fmap.
    rewrite lookup_seqZ_lt by (rewrite Z2Nat.id; lia).
    cbn [fmap option_fmap option_map]. unfold payload_value.
    rewrite Hitem, Hsize, Z2Nat.id by lia. reflexivity.
Qed.

(** X9. Neither fast decoder looks at [valuemultiplier]: setting it in
    the header changes nothing of what they return. *)
Theorem fast_decoders_ignore_valuemultiplier (w : Z)
    (headers : gmap string hval) (v : hval) (dtype : string) (f : stream) :
  _fast_binary_decode w (<["valuemultiplier" := v]> headers) dtype f
  = _fast_binary_decode w headers dtype f
  /\ _fast_binary_decode_scalars w (<["valuemultiplier" := v]> headers) dtype f
     = _fast_binary_decode_scalars w headers dtype f.
Proof.
  assert (forall key, key <> "valuemultiplier"%string ->
            nodes (<["valuemultiplier" := v]> headers) key = nodes headers key)
    as Hnodes.
  { intros key Hkey. unfold nodes, hget.
    rewrite lookup_insert_ne by congruence. reflexivity. }
  unfold _fast_binary_decode, _fast_binary_decode_scalars.
  rewrite !Hnodes by discriminate. split; reflexivity.
Qed.

Lemma text_cell_eof : text_cell [] = Raise IndexError.
Proof. reflexivity. Qed.

Lemma cells_count (nx ny nz : Z) :
  0 <= nx -> 0 <= ny -> 0 <= nz ->
  (Z.to_nat nz * Z.to_nat ny * Z.to_nat nx)%nat = Z.to_nat (nx * ny * nz).
Proof. intros. nia. Qed.

(** [readline] hands out a line that heads the stream. *)
Lemma readline_line (raw : bytes) (rest : stream) :
  is_line raw -> readline (raw ++ rest) = (raw, rest).
Proof.
  intros (body & -> & Hbody). rewrite <- app_assoc. cbn [app].
  induction Hbody as [|b body Hb _ IH]; [reflexivity|].
  cbn [app readline]. rewrite (proj2 (Z.eqb_neq _ _) Hb), IH. reflexivity.
Qed.

Lemma getitem_first3 {A} (t0 t1 t2 : A) (more : list A) :
  getitem (t0 :: t1 :: t2 :: more) 0 = Ret t0
  /\ getitem (t0 :: t1 :: t2 :: more) 1 = Ret t1
  /\ getitem (t0 :: t1 :: t2 :: more) 2 = Ret t2.
Proof.
  unfold getitem. cbn [length Z.ltb Z.compare].
  repeat split;
    match goal with
    | |- context [(0 <=? ?j) && (?j <? ?n)] =>
        replace ((0 <=? j) && (j <? n)) with true
          by (symmetry; apply andb_true_intro; split;
              [apply Z.leb_le | apply Z.ltb_lt]; lia)
    end; reflexivity.
Qed.

(** The body of the loops of the text decoder on a line of three
    numbers. *)
Lemma text_cell_line (raw : bytes) (xs : list float) (rest : stream) :
  cell_line raw xs -> text_cell (raw ++ rest) = Ret (xs, rest).
Proof.
  intros (Hline & t0 & t1 & t2 & more & x0 & x1 & x2
          & Hsplit & H0 & H1 & H2 & ->).
  unfold text_cell, io_bind, f_readline, lift.
  rewrite (readline_line raw rest Hline). cbv zeta. rewrite Hsplit.
  destruct (getitem_first3 t0 t1 t2 more) as (-> & -> & ->).
  cbn [obind]. rewrite H0. cbn [obind]. rewrite H1. cbn [obind].
  rewrite H2. reflexivity.
Qed.

(** The loops of the text decoder on as many lines as they make
    rounds. *)
Lemma repeat_text_cell (lines : list bytes) (vals : list (list float))
    (rest : stream) :
  Forall2 cell_line lines vals ->
  repeat_io (length lines) text_cell (concat lines ++ rest)
  = Ret (concat vals, rest).
Proof.
  induction 1 as [|raw xs lines vals Hcell _ IH]; [reflexivity|].
  cbn [length repeat_io concat]. rewrite <- app_assoc.
  unfold io_bind at 1. rewrite (text_cell_line raw xs _ Hcell).
  unfold io_bind. rewrite IH. reflexivity.
Qed.

Lemma lookup_concat_cells (vals : list (list float)) (n c : nat) :
  Forall (fun xs => length xs = 3%nat) vals ->
  (c < 3)%nat ->
  concat vals !! (n * 3 + c)%nat = vals !! n ≫= (fun xs => xs !! c).
Proof.
  intros Hall Hc. revert n. induction Hall as [|xs vals Hxs _ IH]; intros n.
  - destruct n; reflexivity.
  - cbn [concat]. destruct n as [|n].
    + cbn [Nat.mul Nat.add lookup list_lookup mbind option_bind].
      apply lookup_app_l. lia.
    + rewrite lookup_app_r by lia.
      replace (S n * 3 + c - length xs)%nat with (n * 3 + c)%nat by lia.
      apply IH.
Qed.

Lemma cell_line_length (lines : list bytes) (vals : list (list float)) :
  Forall2 cell_line lines vals ->
  Forall (fun xs => length xs = 3%nat) vals.
Proof.
  induction 1 as [|raw xs lines vals Hcell _ IH]; constructor; [|exact IH].
  destruct Hcell as (_ & t0 & t1 & t2 & more & x0 & x1 & x2 & _ & _ & _ & _ & ->).
  reflexivity.
Qed.

(** X18. The text decoder reads one line per cell, in file order. On a
    stream that starts with nx*ny*nz lines of three numbers each, for a
    geometry whose array of doubles, an axis of 0 counted as 1, takes no
    more than [max_intp] bytes, the result has shape (nz, ny, nx, 3),
    its element [k][j][i][c] is number [c] of line (k*ny + j)*nx + i
    multiplied by the factor of the header (the value stored under
    [valuemultiplier], and 1 when the header has no such key), and the
    stream is left after the last of these lines. *)
Theorem text_decode_lines (nx ny nz : Z) (headers : gmap string hval)
    (m : float) (lines : list bytes) (vals : list (list float))
    (rest : stream) :
  nodes headers "xnodes" = Ret nx ->
  nodes headers "ynodes" = Ret ny ->
  nodes headers "znodes" = Ret nz ->
  0 <= nx -> 0 <= ny -> 0 <= nz ->
  array_bytes 8 [nz; ny; nx; 3] <= max_intp ->
  Z.of_nat (length lines) = nx * ny * nz ->
  Forall2 cell_line lines vals ->
  factor headers m ->
  exists a,
    _text_decode headers (concat lines ++ rest) = Ret (a, rest)
    /\ shape a = [nz; ny; nx; 3]
    /\ data a = map (fun x => float_mul x m) (concat vals)
    /\ forall k j i c,
         0 <= k < nz -> 0 <= j < ny -> 0 <= i < nx -> 0 <= c < 3 ->
         exists xs x,
           vals !! Z.to_nat ((k * ny + j) * nx + i) = Some xs
           /\ xs !! Z.to_nat c = Some x
           /\ np_getitem a [k; j; i; c] = Some (float_mul x m).
Proof.
  intros Hx Hy Hz Hnx Hny Hnz Hbytes Hlen Hcells Hm%factor_multiplier.
  assert (Forall (fun d => 0 <= d) [nz; ny; nx; 3]) as Hpos
    by (repeat constructor; lia).
  eexists. split; [|split; [|split]].
  - unfold _text_decode, io_bind, lift. rewrite Hz, Hy, Hx.
    cbn [obind]. unfold np_empty_check.
    rewrite shape_ok_bytes by (assumption || lia). cbn [obind].
    rewrite !repeat_io_nested, cells_count by assumption.
    rewrite <- Hlen, Nat2Z.id, (repeat_text_cell lines vals rest Hcells).
    rewrite Hm. reflexivity.
  - reflexivity.
  - reflexivity.
  - intros k j i c Hk Hj Hi Hc.
    pose proof (vector_index_bound nx ny nz k j i c Hk Hj Hi Hc) as Hidx.
    assert (0 <= (k * ny + j) * nx + i < nx * ny * nz) as Hcell.
    { assert (0 <= k * ny + j < nz * ny) by nia. nia. }
    pose proof (cell_line_length lines vals Hcells) as Hthree.
    pose proof (Forall2_length _ _ _ Hcells) as Hsame.
    destruct (lookup_lt_is_Some_2 vals (Z.to_nat ((k * ny + j) * nx + i)))
      as [xs Hxs]; [lia|].
    assert (length xs = 3%nat) as Hxs3.
    { rewrite Forall_forall in Hthree. apply Hthree.
      eapply list_elem_of_lookup_2. exact Hxs. }
    destruct (lookup_lt_is_Some_2 xs (Z.to_nat c)) as [x Hx']; [lia|].
    exists xs, x. repeat split; [exact Hxs | exact Hx' |].
    rewrite np_getitem_vector by assumption.
    rewrite list_lookup_fmap.
    replace (Z.to_nat (((k * ny + j) * nx + i) * 3 + c))
      with (Z.to_nat ((k * ny + j) * nx + i) * 3 + Z.to_nat c)%nat by lia.
    rewrite (lookup_concat_cells vals _ _ Hthree) by lia.
    rewrite Hxs. cbn [mbind option_bind]. rewrite Hx'. reflexivity.
Qed.

(** X10. A text payload that ends after fewer lines of three numbers
    than there are cells, for a geometry whose array of doubles, an axis
    of 0 counted as 1, takes no more than [max_intp] bytes, makes the
    decoder raise [IndexError] at the end of the stream: no partial
    array is returned. *)
Theorem text_decode_truncated (nx ny nz : Z) (headers : gmap string hval)
    (lines : list bytes) (vals : list (list float)) :
  nodes headers "xnodes" = Ret nx ->
  nodes headers "ynodes" = Ret ny ->
  nodes headers "znodes" = Ret nz ->
  0 <= nx -> 0 <= ny -> 0 <= nz ->
  array_bytes 8 [nz; ny; nx; 3] <= max_intp ->
  Z.of_nat (length lines) < nx * ny * nz ->
  Forall2 cell_line lines vals ->
  _text_decode headers (concat lines) = Raise IndexError.
Proof.
  intros Hx Hy Hz Hnx Hny Hnz Hbytes Hk Hcells.
  assert (Forall (fun d => 0 <= d) [nz; ny; nx; 3]) as Hpos
    by (repeat constructor; lia).
  unfold _text_decode, io_bind, lift. rewrite Hz, Hy, Hx.
  cbn [obind]. unfold np_empty_check.
  rewrite shape_ok_bytes by (assumption || lia). cbn [obind].
  rewrite !repeat_io_nested, cells_count by assumption.
  replace (Z.to_nat (nx * ny * nz))
    with (length lines + S (Z.to_nat (nx * ny * nz) - S (length lines)))%nat
    by lia.
  rewrite repeat_io_add. unfold io_bind at 1.
  rewrite <- (app_nil_r (concat lines)).
  rewrite (repeat_text_cell lines vals [] Hcells).
  cbn [repeat_io]. unfold io_bind. rewrite text_cell_eof. reflexivity.
Qed.

Lemma fast_binary_decode_scalars_well_formed (w : Z)
    (headers : gmap string hval) (dtype : string) (f f' : stream)
    (a : ndarray) :
  _fast_binary_decode_scalars w headers dtype f = Ret (a, f') ->
  well_formed a.
Proof.
  unfold _fast_binary_decode_scalars. intros Hrun.
  apply io_bind_ret in Hrun as (xs & f1 & _ & Hrun).
  apply io_bind_ret in Hrun as (ys & f2 & _ & Hrun).
  apply io_bind_ret in Hrun as (zs & f3 & _ & Hrun).
  apply io_bind_ret in Hrun as (buffer & f4 & _ & Hrun).
  apply lift_ret in Hrun as [Hrun _].
  apply obind_ret in Hrun as (ret & _ & Hrun).
  exact (np_reshape_well_formed _ _ _ _ Hrun).
Qed.

(** X11. Every array that [unpack] or [unpack_scalars] returns holds
    exactly as many elements as the product of its shape. *)
Theorem unpack_result_well_formed (fuel : nat) (fs : gmap path node)
    (p : path) (a : ndarray) :
  unpack fuel fs p = Ret (Some a) \/ unpack_scalars fuel fs p = Ret a ->
  product (shape a) = Z.of_nat (length (data a)).
Proof.
  intros [Hrun | Hrun]; [exact (unpack_well_formed _ _ _ _ Hrun)|].
  unfold unpack_scalars in Hrun.
  apply obind_ret in Hrun as (f & _ & Hrun).
  apply obind_ret in Hrun as ([v f'] & Hfile & Hrun).
  cbn [fst] in Hrun. injection Hrun as ->.
  unfold unpack_scalars_file in Hfile.
  apply io_bind_ret in Hfile as (headers & f1 & _ & Hfile).
  apply io_bind_ret in Hfile as (kind & f2 & _ & Hfile).
  destruct (decide (kind = lit "Binary")); [|discriminate].
  apply io_bind_ret in Hfile as (width & f3 & _ & Hfile).
  apply io_bind_ret in Hfile as (chunk & f4 & _ & Hfile).
  apply io_bind_ret in Hfile as (dtype & f5 & _ & Hfile).
  exact (fast_binary_decode_scalars_well_formed _ _ _ _ _ _ Hfile).
Qed.

(** X16. [unpack_scalars] reads binary files only: on a file whose
    header is read and whose encoding token is anything but [Binary],
    [Text] included, it raises [NotImplementedError]. *)
Theorem unpack_scalars_not_binary (fuel : nat) (fs : gmap path node)
    (p : path) (f rest : stream) (headers : gmap string hval) (kind : str) :
  open fs p = Ret f ->
  _read_header fuel f = Ret (headers, rest) ->
  data_type headers 3 = Ret kind ->
  kind <> lit "Binary" ->
  unpack_scalars fuel fs p = Raise NotImplementedError.
Proof.
  intros Hopen Hhead Hkind Hne.
  unfold unpack_scalars, pathize. rewrite Hopen. cbn [obind].
  unfold unpack_scalars_file, io_bind at 1. rewrite Hhead.
  unfold io_bind at 1, lift at 1. rewrite Hkind. cbn [obind].
  rewrite decide_False by exact Hne. reflexivity.
Qed.
End DecoderTheorems.

(** ** Runs of the statements above *)

Lemma read_header_marker_free_witness :
  marker_free file_truncated
  /\ forall r, _read_header 10 file_truncated <> Ret r.
Proof.
  assert (marker_free file_truncated) as Hfree
    by (unfold marker_free; settle_lines).
  split; [exact Hfree|].
  exact (read_header_marker_free 10 file_truncated Hfree).
Defined.

Lemma read_header_halts_witness :
  _read_header 100 (file_step "1 2 3") <> OutOfFuel
  /\ _read_header 100 (file_step "1 2 3")
     = _read_header (length (file_step "1 2 3")) (file_step "1 2 3").
Proof.
  apply (read_header_halts 100 (file_step "1 2 3")
           (blit ("# Begin: Data Text" ++ nl)) (lit "# Begin: Data Text")).
  - vm_compute. repeat (first [left; reflexivity | right]).
  - vm_compute. reflexivity.
  - vm_compute. reflexivity.
  - vm_compute. lia.
Defined.

Lemma unpack_binary_layout_witness :
  exists a,
    unpack 10 fs_files ["vector.ovf"%string] = Ret (Some a)
    /\ shape a = [1; 1; 2; 3]
    /\ forall k j i c,
         0 <= k < 1 -> 0 <= j < 1 -> 0 <= i < 2 -> 0 <= c < 3 ->
         np_getitem a [k; j; i; c]
         = Some (interpretation false 4
                   (slice (drop (Z.to_nat 4) (rev mark4 ++ f32le_1_to_6))
                      ((((k * 1 + j) * 2 + i) * 3 + c) * 4) 4)).
Proof.
  apply (unpack_binary_layout 10 fs_files ["vector.ovf"%string]
           file_vector_x2 (rev mark4 ++ f32le_1_to_6) headers_vector_x2
           (lit "4") 4 2 1 1 false);
    try (vm_compute; solve [reflexivity | discriminate]).
  left; reflexivity.
Defined.

Lemma unpack_scalars_layout_witness :
  exists a,
    unpack_scalars 10 fs_files ["scalar.ovf"%string] = Ret a
    /\ shape a = [1; 1; 2]
    /\ forall k j i,
         0 <= k < 1 -> 0 <= j < 1 -> 0 <= i < 2 ->
         np_getitem a [k; j; i]
         = Some (interpretation false 4
                   (slice (drop (Z.to_nat 4) (rev mark4 ++ take 8 f32le_1_to_6))
                      (((k * 1 + j) * 2 + i) * 4) 4)).
Proof.
  apply (unpack_scalars_layout 10 fs_files ["scalar.ovf"%string]
           file_scalar_x2 (rev mark4 ++ take 8 f32le_1_to_6) headers_vector_x2
           (lit "4") 4 2 1 1 false);
    try (vm_compute; solve [reflexivity | discriminate]).
  left; reflexivity.
Defined.

(** The lines ["1 2 3"] and ["4 5 6"] of a text payload. *)
Lemma cell_line_123 : cell_line (blit ("1 2 3" ++ nl)) (map f64 [1; 2; 3]).
Proof.
  split.
  - exists (blit "1 2 3"). split; [reflexivity|].
    repeat constructor; vm_compute; discriminate.
  - exists (blit "1"), (blit "2"), (blit "3"), [], (f64 1), (f64 2), (f64 3).
    repeat split; vm_compute; reflexivity.
Qed.

Lemma cell_line_456 : cell_line (blit ("4 5 6" ++ nl)) (map f64 [4; 5; 6]).
Proof.
  split.
  - exists (blit "4 5 6"). split; [reflexivity|].
    repeat constructor; vm_compute; discriminate.
  - exists (blit "4"), (blit "5"), (blit "6"), [], (f64 4), (f64 5), (f64 6).
    repeat split; vm_compute; reflexivity.
Qed.

Lemma text_decode_lines_witness :
  exists a,
    _text_decode headers_vector_x2
      (concat [blit ("1 2 3" ++ nl); blit ("4 5 6" ++ nl)]
       ++ blit ("# End: Data Text" ++ nl))
    = Ret (a, blit ("# End: Data Text" ++ nl))
    /\ shape a = [1; 1; 2; 3]
    /\ data a = map (fun x => float_mul x (f64 2))
                  (concat [map f64 [1; 2; 3]; map f64 [4; 5; 6]])
    /\ forall k j i c,
         0 <= k < 1 -> 0 <= j < 1 -> 0 <= i < 2 -> 0 <= c < 3 ->
         exists xs x,
           [map f64 [1; 2; 3]; map f64 [4; 5; 6]]
             !! Z.to_nat ((k * 1 + j) * 2 + i) = Some xs
           /\ xs !! Z.to_nat c = Some x
           /\ np_getitem a [k; j; i; c] = Some (float_mul x (f64 2)).
Proof.
  apply (text_decode_lines 2 1 1 headers_vector_x2 (f64 2)
           [blit ("1 2 3" ++ nl); blit ("4 5 6" ++ nl)]
           [map f64 [1; 2; 3]; map f64 [4; 5; 6]]
           (blit ("# End: Data Text" ++ nl)));
    [vm_compute; reflexivity | vm_compute; reflexivity
    | vm_compute; reflexivity | lia | lia | lia
    | vm_compute; discriminate | reflexivity | | left; reflexivity].
  constructor; [exact cell_line_123|].
  constructor; [exact cell_line_456|]. constructor.
Defined.

Lemma text_decode_truncated_witness :
  _text_decode headers_vector_x2 (concat [blit ("1 2 3" ++ nl)])
  = Raise IndexError.
Proof.
  apply (text_decode_truncated 2 1 1 headers_vector_x2
           [blit ("1 2 3" ++ nl)] [map f64 [1; 2; 3]]);
    [vm_compute; reflexivity | vm_compute; reflexivity
    | vm_compute; reflexivity | lia | lia | lia
    | vm_compute; discriminate | vm_compute; reflexivity | ].
  constructor; [exact cell_line_123|]. constructor.
Defined.

Lemma unpack_result_well_formed_witness :
  product [1; 1; 2; 3] = Z.of_nat (length (map f32 [1; 2; 3; 4; 5; 6])).
Proof.
  apply (unpack_result_well_formed 10 fs_files ["example.ovf"%string]
           {| shape := [1; 1; 2; 3]; data := map f32 [1; 2; 3; 4; 5; 6] |}).
  left. vm_compute. reflexivity.
Defined.

Lemma unpack_scalars_not_binary_witness :
  unpack_scalars 10 fs_runs ["run.out"; "m000000.ovf"]%string
  = Raise NotImplementedError.
Proof.
  apply (unpack_scalars_not_binary 10 fs_runs
           ["run.out"; "m000000.ovf"]%string (file_step "1 2 3")
           (blit ("1 2 3" ++ nl)) headers_step (lit "Text"));
    vm_compute; solve [reflexivity | discriminate].
Defined.

(** ** The first failure of a group *)

Section GroupFailure.
Context `{Builtins}.

(** X17. [group_unpack] stops at the first file, in the order of the
    names, that does not decode: when the files before it decode and it
    raises an exception, [group_unpack] raises that exception, whatever
    the later files hold. *)
Theorem group_unpack_first_failure (fuel : nat) (fs : gmap path node)
    (p dir : path) (before later : list path) (f : path) (e : exn) :
  (path_suffix p = ".out"%string /\ dir = p)
  \/ (path_suffix p = ".ovf"%string /\ dir = path_parent p) ->
  sorted (glob fs dir "m*.ovf") = before ++ f :: later ->
  Forall (fun g => exists v, unpack fuel fs g = Ret v) before ->
  unpack fuel fs f = Raise e ->
  group_unpack fuel fs p = Raise e.
Proof.
  intros Hcase Hfiles Hbefore Hf.
  assert (group_files fs p = Some (before ++ f :: later)) as Hgroup.
  { unfold group_files. destruct Hcase as [[Hsuf ->] | [Hsuf ->]].
    - rewrite decide_True by assumption. rewrite Hfiles. reflexivity.
    - rewrite decide_False by (rewrite Hsuf; discriminate).
      rewrite decide_True by assumption. rewrite Hfiles. reflexivity. }
  unfold group_unpack, pathize. rewrite Hgroup. cbn [or_raise obind].
  rewrite (unpack_all_first_failure _ _ _ _ _ _ Hbefore Hf). reflexivity.
Qed.
End GroupFailure.

Lemma group_unpack_first_failure_witness :
  group_unpack 10 fs_broken ["bad.out"%string] = Raise IndexError.
Proof.
  apply (group_unpack_first_failure 10 fs_broken ["bad.out"%string]
           ["bad.out"%string] [["bad.out"; "m000000.ovf"]%string]
           [["bad.out"; "m000002.ovf"]%string]
           ["bad.out"; "m000001.ovf"]%string IndexError).
  - left. split; reflexivity.
  - vm_compute. reflexivity.
  - constructor; [|constructor]. eexists. vm_compute. reflexivity.
  - vm_compute. reflexivity.
Defined.
